(** * ipguide: the CIDR search tree and the ip.guide database

    A shallow embedding of [src/ipguide.py]: the class [NetTree] (a binary
    trie over the 128 bits of an IPv6 address, IPv4 networks being embedded
    as IPv4-mapped IPv6 networks) and the class [IPGuide] (the database
    built from the rows of the bulk CSV file, with its lookups by address,
    by ASN and by country, and the expansion of specifiers).

    Python values are modelled as follows.
    - [str] is [string]; the text is taken to be ASCII.
    - [int] is [Z].
    - a node of the tree, the list [[child0, child1, data]], is the
      inductive [NetTree.node]; [None] in a slot is [None].
    - the dictionaries [database['asn']] and [database['country']] are
      finite maps ([gmap]).
    - a call that may raise returns a [result]; a method that mutates
      [self] is a function from the object to the object after the call
      together with the [result] of the call, so that what a raising call
      leaves behind is part of the model. *)

From stdpp Require Import gmap strings list fin_maps.
From Stdlib Require Import ZArith Ascii String Lia.

Local Open Scope string_scope.
Local Open Scope list_scope.

(** ** Exceptions *)

Inductive exn : Type :=
| ValueError
| IndexError
| KeyError.

Inductive result (A : Type) : Type :=
| OK (a : A)
| Raise (e : exn).

Arguments OK {A} a.
Arguments Raise {A} e.

(** ** The Python built-ins the program uses on strings *)

Module Py.

(** [s.split(sep)] for a one-character separator: the pieces between the
    separators, empty pieces included; never the empty list. *)
Fixpoint split (sep : ascii) (s : string) : list string :=
  match s with
  | EmptyString => [EmptyString]
  | String c s' =>
      if Ascii.eqb c sep then EmptyString :: split sep s'
      else match split sep s' with
           | [] => [String c EmptyString]
           | w :: ws => String c w :: ws
           end
  end.

(** [s.startswith(p)] *)
Definition startswith (p s : string) : bool := String.prefix p s.

Definition is_digit (c : ascii) : bool :=
  let n := nat_of_ascii c in (48 <=? n)%nat && (n <=? 57)%nat.

Definition digit_value (c : ascii) : Z := Z.of_nat (nat_of_ascii c) - 48.

(** The characters [int()] skips as white space around the literal in an
    ASCII string: tab, line feed, vertical tab, form feed, carriage return
    (0x09-0x0d) and the space. *)
Definition is_space (c : ascii) : bool :=
  let n := nat_of_ascii c in
  ((9 <=? n)%nat && (n <=? 13)%nat) || (n =? 32)%nat.

Fixpoint lstrip (s : string) : string :=
  match s with
  | String c s' => if is_space c then lstrip s' else s
  | EmptyString => EmptyString
  end.

Fixpoint all_space (s : string) : bool :=
  match s with
  | EmptyString => true
  | String c s' => is_space c && all_space s'
  end.

(** The digits of a decimal literal, after white space and sign: digits
    with single underscores between them, up to trailing white space.
    [prev] tells whether the previous character was a digit. *)
Fixpoint int_digits (s : string) (prev : bool) (acc : Z) : option Z :=
  match s with
  | EmptyString => if prev then Some acc else None
  | String c s' =>
      if is_digit c then int_digits s' true (10 * acc + digit_value c)
      else if Ascii.eqb c "_" then
        if prev then
          match s' with
          | String d _ => if is_digit d then int_digits s' false acc else None
          | EmptyString => None
          end
        else None
      else if prev && all_space s then Some acc
      else None
  end.

Fixpoint count_digits (s : string) : nat :=
  match s with
  | EmptyString => 0
  | String c s' => (if is_digit c then 1 else 0) + count_digits s'
  end.

(** [int(s)] on a string, base ten; [None] is [ValueError]. A literal of
    more than 4300 digits is refused (the interpreter's default limit). *)
Definition int (s : string) : option Z :=
  if (4300 <? count_digits s)%nat then None else
  match lstrip s with
  | String "-" s' => Z.opp <$> int_digits s' false 0
  | String "+" s' => int_digits s' false 0
  | s' => int_digits s' false 0
  end.

(** [l[i]]; [None] is [IndexError]. *)
Definition item {A} (l : list A) (i : nat) : result A :=
  match l !! i with
  | Some x => OK x
  | None => Raise IndexError
  end.

End Py.

(** ** The standard library's [ipaddress.ip_network]

    The program parses every network and address with [ip_network(text)]
    (strict mode). That function belongs to the Python standard library and
    not to the repository; it is modelled here, function by function, for
    ASCII text: a dotted quad or colon-separated hextets (one [::] allowed,
    a dotted quad allowed as the last part, a zone identifier after [%]),
    optionally followed by a slash and the prefix length in decimal or, for
    IPv4, a net mask or host mask as a dotted quad. *)

Module IPAddress.

Inductive ip_net : Type :=
| IPv4Network (network_address : Z) (prefixlen : nat)
| IPv6Network (network_address : Z) (prefixlen : nat).

Fixpoint all_digits (s : string) : bool :=
  match s with
  | EmptyString => true
  | String c s' => Py.is_digit c && all_digits s'
  end.

Fixpoint decimal (s : string) (acc : Z) : Z :=
  match s with
  | EmptyString => acc
  | String c s' => decimal s' (10 * acc + Py.digit_value c)
  end.

(** [_parse_octet]: one to three decimal digits, no leading zero, at most
    255. *)
Definition parse_octet (s : string) : option Z :=
  match s with
  | EmptyString => None
  | String c rest =>
      if negb (all_digits s) then None
      else if (3 <? String.length s)%nat then None
      else if Ascii.eqb c "0" && negb (String.eqb rest EmptyString) then None
      else let v := decimal s 0 in
           if (255 <? v)%Z then None else Some v
  end.

(** [IPv4Address._ip_int_from_string] *)
Definition ipv4_int (s : string) : option Z :=
  match Py.split "." s with
  | [a; b; c; d] =>
      oa ← parse_octet a; ob ← parse_octet b;
      oc ← parse_octet c; od ← parse_octet d;
      Some (((oa * 256 + ob) * 256 + oc) * 256 + od)%Z
  | _ => None
  end.

Definition hex_value (c : ascii) : option Z :=
  let n := nat_of_ascii c in
  if Py.is_digit c then Some (Z.of_nat n - 48)%Z
  else if (97 <=? n)%nat && (n <=? 102)%nat then Some (Z.of_nat n - 87)%Z
  else if (65 <=? n)%nat && (n <=? 70)%nat then Some (Z.of_nat n - 55)%Z
  else None.

Fixpoint hex (s : string) (acc : Z) : option Z :=
  match s with
  | EmptyString => Some acc
  | String c s' => v ← hex_value c; hex s' (16 * acc + v)%Z
  end.

(** [_parse_hextet]: one to four hexadecimal digits. *)
Definition parse_hextet (s : string) : option Z :=
  match s with
  | EmptyString => None
  | _ => if (4 <? String.length s)%nat then None else hex s 0
  end.

(** [ip_int <<= 16; ip_int |= hextet] over a run of parts *)
Fixpoint hextets (parts : list string) (acc : Z) : option Z :=
  match parts with
  | [] => Some acc
  | p :: ps => v ← parse_hextet p; hextets ps (Z.lor (Z.shiftl acc 16) v)
  end.

Definition has_dot (s : string) : bool :=
  match Py.split "." s with
  | [_] => false
  | _ => true
  end.

Definition is_empty (s : string) : bool := String.eqb s EmptyString.

(** The positions strictly inside [parts] that hold an empty part. *)
Definition inner_empties (parts : list string) : list nat :=
  filter (fun i => is_empty (nth i parts "0") = true)
         (seq 1 (List.length parts - 2)).

(** [IPv6Address._ip_int_from_string]. When the last part is a dotted
    quad, Python replaces it by its two halves printed in hexadecimal;
    here two zero hextets stand in their place and the 32 bits are put in
    at the end. *)
Definition ipv6_int (s : string) : option Z :=
  let parts0 := Py.split ":" s in
  if (List.length parts0 <? 3)%nat then None else
  let last0 := List.last parts0 EmptyString in
  suffix ← (if has_dot last0
            then v ← ipv4_int last0; Some (Some v)
            else Some None);
  let parts :=
    match suffix with
    | Some _ => removelast parts0 ++ ["0"; "0"]
    | None => parts0
    end in
  let n := List.length parts in
  if (9 <? n)%nat then None else
  let first_empty := is_empty (nth 0 parts "0") in
  let last_empty := is_empty (List.last parts "0") in
  let finish (v : Z) : option Z :=
    match suffix with
    | Some q => Some (Z.lor v q)
    | None => Some v
    end in
  match inner_empties parts with
  | _ :: _ :: _ => None
  | [skip] =>
      let hi0 := skip in
      let lo0 := (n - skip - 1)%nat in
      if first_empty && negb (hi0 - 1 =? 0)%nat then None else
      if last_empty && negb (lo0 - 1 =? 0)%nat then None else
      let hi := if first_empty then (hi0 - 1)%nat else hi0 in
      let lo := if last_empty then (lo0 - 1)%nat else lo0 in
      if (8 <? hi + lo + 1)%nat then None else
      let skipped := (8 - (hi + lo))%nat in
      vh ← hextets (take hi parts) 0;
      vl ← hextets (drop (n - lo) parts)
                   (Z.shiftl vh (16 * Z.of_nat skipped));
      finish vl
  | [] =>
      if negb (n =? 8)%nat then None else
      if first_empty || last_empty then None else
      v ← hextets parts 0; finish v
  end.

(** [_prefix_from_prefix_string]: decimal digits (no more than [int()]
    takes, 4300), at most [maxlen]. *)
Definition parse_prefixlen (maxlen : nat) (s : string) : option nat :=
  match s with
  | EmptyString => None
  | _ => if all_digits s && negb (4300 <? String.length s)%nat
         then let v := decimal s 0 in
              if (Z.of_nat maxlen <? v)%Z then None else Some (Z.to_nat v)
         else None
  end.

(** [x.bit_length()] for [x] not negative *)
Definition bit_length (x : Z) : Z :=
  if (x =? 0)%Z then 0%Z else (Z.log2 x + 1)%Z.

(** [_count_righthand_zero_bits(number, bits)] *)
Definition count_righthand_zero_bits (number bits : Z) : Z :=
  if (number =? 0)%Z then bits
  else Z.min bits (bit_length (Z.land (Z.lnot number) (number - 1))).

(** [_prefix_from_ip_int] of IPv4: the prefix length of a net mask, ones
    followed by zeros; [None] is its [ValueError]. *)
Definition prefix_from_ip_int (ip_int : Z) : option Z :=
  let trailing_zeroes := count_righthand_zero_bits ip_int 32 in
  let prefixlen := (32 - trailing_zeroes)%Z in
  let leading_ones := Z.shiftr ip_int trailing_zeroes in
  let all_ones := (Z.shiftl 1 prefixlen - 1)%Z in
  if (leading_ones =? all_ones)%Z then Some prefixlen else None.

(** [_prefix_from_ip_string] of IPv4: a net mask, or else a host mask, as
    a dotted quad. *)
Definition prefix_from_ip_string (s : string) : option nat :=
  ip_int ← ipv4_int s;
  match prefix_from_ip_int ip_int with
  | Some p => Some (Z.to_nat p)
  | None => Z.to_nat <$> prefix_from_ip_int (Z.lxor ip_int 4294967295)
  end.

(** [_BaseV4._make_netmask]: the prefix length for what follows the slash,
    or 32 without a slash. *)
Definition ipv4_prefixlen (mask : option string) : option nat :=
  match mask with
  | None => Some 32%nat
  | Some t =>
      match parse_prefixlen 32 t with
      | Some p => Some p
      | None => prefix_from_ip_string t
      end
  end.

(** [_split_scope_id]: the address before a zone identifier, which is
    what follows the first [%], must not be empty and holds no other
    [%]. *)
Definition split_scope_id (s : string) : option string :=
  match Py.split "%" s with
  | [addr] => Some addr
  | [addr; scope_id] => if is_empty scope_id then None else Some addr
  | _ => None
  end.

(** The strict test of the network constructors: no bit of the address
    below the prefix is set. *)
Definition host_bits_clear (width : nat) (a : Z) (plen : nat) : bool :=
  (Z.land a (Z.ones (Z.of_nat (width - plen))) =? 0)%Z.

Definition make_network (width : nat) (mk : Z → nat → ip_net)
    (addr : option Z) (plen : option string) : option ip_net :=
  a ← addr;
  p ← match plen with
      | None => Some width
      | Some t => parse_prefixlen width t
      end;
  if host_bits_clear width a p then Some (mk a p) else None.

(** [ip_network(text)]; [None] is [ValueError]. A text that is a valid
    IPv4 network address with host bits set raises at once; otherwise the
    IPv6 form is tried. *)
Definition ip_network (text : string) : option ip_net :=
  let parts := Py.split "/" text in
  if (2 <? List.length parts)%nat then None else
  let a := nth 0 parts EmptyString in
  let plen := parts !! 1%nat in
  match ipv4_int a, ipv4_prefixlen plen with
  | Some v, Some p =>
      if host_bits_clear 32 v p then Some (IPv4Network v p) else None
  | _, _ =>
      make_network 128 IPv6Network (split_scope_id a ≫= ipv6_int) plen
  end.

End IPAddress.

Import IPAddress.

(** ** class NetTree *)

Module NetTree.

(** A node is the three-element list [[child0, child1, data]]. *)
#[warnings="-register-all"]
Inductive node (D : Type) : Type :=
| Node (child0 child1 : option (node D)) (data : option D).

Arguments Node {D} child0 child1 data.

Section Tree.

(** [D] is the type of the values attached to nodes, [None] excluded;
    [truthy] is Python's truth test on them, which [search] applies. *)
Context {D : Type} (truthy : D → bool).

(** [here[b]] for [b] in [(0, 1)], and [here[2]] *)
Definition child (here : node D) (b : bool) : option (node D) :=
  match here with
  | Node c0 c1 _ => if b then c1 else c0
  end.

Definition data (here : node D) : option D :=
  match here with
  | Node _ _ d => d
  end.

(** [here[b] = c] and [here[2] = d] *)
Definition set_child (here : node D) (b : bool) (c : node D) : node D :=
  match here with
  | Node c0 c1 d => if b then Node c0 (Some c) d else Node (Some c) c1 d
  end.

Definition set_data (here : node D) (d : D) : node D :=
  match here with
  | Node c0 c1 _ => Node c0 c1 (Some d)
  end.

(** [[None, None, None]]: the tree of [__init__] and every new node *)
Definition empty : node D := Node None None None.

(** The [isinstance(net, IPv4Network)] branch shared by [insert] and
    [search]: [ip_network(f"::ffff:{address}/{prefixlen + 96}")], that
    is the IPv6 network whose address has 0xffff in bits 32-47 above
    the 32 bits of the IPv4 address. The result is the pair
    [(int(net.network_address), net.prefixlen)]. *)
Definition embed (net : ip_net) : Z * nat :=
  match net with
  | IPv4Network a p => (Z.lor (Z.shiftl 65535 32) a, p + 96)
  | IPv6Network a p => (a, p)
  end.

(** [f"{a:0128b}"]: the 128 bits of [a], the most significant first;
    [true] is the character 1, which [int(b)] turns into the index 1. An
    IPv6 address is below 2^128, so the text has exactly 128 characters. *)
Definition bits (a : Z) : list bool :=
  map (fun i => Z.testbit a (127 - Z.of_nat i)) (seq 0 128).

(** [prefix = f"{int(net.network_address):0128b}"[:net.prefixlen]] *)
Definition prefix (net : ip_net) : list bool :=
  let '(a, p) := embed net in take p (bits a).

(** The loop of [insert] followed by [here[2] = data]: the tree rooted
    at [here] after the call. *)
Fixpoint insert_loop (here : node D) (prefix : list bool) (d : D)
  {struct prefix} : node D :=
  match prefix with
  | [] => set_data here d
  | b :: rest =>
      let next := match child here b with
                  | None => empty
                  | Some c => c
                  end in
      set_child here b (insert_loop next rest d)
  end.

(** [insert(self, network, data)]: the tree after the call. When
    [ip_network] raises, nothing has been changed yet. *)
Definition insert (tree : node D) (network : string) (d : D)
  : result (node D) :=
  match ip_network network with
  | None => Raise ValueError
  | Some net => OK (insert_loop tree (prefix net) d)
  end.

(** [if here[2]: net = here[2]] *)
Definition remember (here : node D) (net : option D) : option D :=
  match data here with
  | Some d => if truthy d then Some d else net
  | None => net
  end.

(** The loop of [search] and its [return net]. *)
Fixpoint search_loop (here : node D) (prefix : list bool) (net : option D)
  {struct prefix} : option D :=
  match prefix with
  | [] => net
  | b :: rest =>
      let net' := remember here net in
      match child here b with
      | None => net'
      | Some c => search_loop c rest net'
      end
  end.

(** [search(self, network)]; the value [None] is Python's [None]. *)
Definition search (tree : node D) (network : string) : result (option D) :=
  match ip_network network with
  | None => Raise ValueError
  | Some net => OK (search_loop tree (prefix net) None)
  end.

(** *** Vocabulary for the statements about the tree *)

(** The node addressed by a bit path, if it exists. *)
Fixpoint node_at (t : node D) (path : list bool) {struct path}
  : option (node D) :=
  match path with
  | [] => Some t
  | b :: rest =>
      match child t b with
      | None => None
      | Some c => node_at c rest
      end
  end.

(** The value attached at a bit path: [None] when the node does not
    exist or carries nothing. *)
Definition record_at (t : node D) (path : list bool) : option D :=
  match node_at t path with
  | Some n => data n
  | None => None
  end.

(** An address lies in a network when it shares the bits of the
    network's prefix. Both are taken in the 128-bit space. *)
Definition contains (net : ip_net) (address : ip_net) : Prop :=
  prefix net `prefix_of` bits (fst (embed address)).

(** A path is strictly above another when it is a shorter initial part
    of it: the nodes strictly above the end of the query path are the
    ones the loop of [search] looks at. *)
Definition above (p q : list bool) : Prop :=
  p `prefix_of` q ∧ List.length p < List.length q.




(** A sequence of calls [insert(network, data)], up to the first one
    that raises. *)
Fixpoint insert_all (tree : node D) (entries : list (string * D))
  : result (node D) :=
  match entries with
  | [] => OK tree
  | (network, d) :: rest =>
      match insert tree network d with
      | OK tree' => insert_all tree' rest
      | Raise e => Raise e
      end
  end.

End Tree.

Section Dump.

(** [show] is what the f-string prints for the value attached to a node
    ([str] of the value). *)
Context {D : Type} (truthy : D → bool) (show : D → string).

Definition newline : string := String "010" EmptyString.

(** [dump(self, node, path)] for a node of the tree; the call without
    arguments is [dump tree ""]. The parameter [depth] is not used by the
    method. *)
Fixpoint dump (here : node D) (path : string) {struct here} : string :=
  match here with
  | Node child0 child1 d =>
      (match d with
       | Some v => if truthy v
                   then path +:+ ": " +:+ show v +:+ newline
                   else EmptyString
       | None => EmptyString
       end)
      +:+ (match child0 with
           | None => EmptyString
           | Some c => dump c (path +:+ "0")
           end)
      +:+ (match child1 with
           | None => EmptyString
           | Some c => dump c (path +:+ "1")
           end)
  end.

(** *** Vocabulary for the statements about [dump] *)

(** The true values of the tree with their bit paths: a node before the
    nodes below it, the 0 side before the 1 side. *)
Fixpoint entries (here : node D) (path : list bool) {struct here}
  : list (list bool * D) :=
  match here with
  | Node child0 child1 d =>
      (match d with
       | Some v => if truthy v then [(path, v)] else []
       | None => []
       end)
      ++ (match child0 with
          | None => []
          | Some c => entries c (path ++ [false])
          end)
      ++ (match child1 with
          | None => []
          | Some c => entries c (path ++ [true])
          end)
  end.

(** A bit path as [dump] writes it, and the line for one value. *)
Fixpoint path_text (p : list bool) : string :=
  match p with
  | [] => EmptyString
  | b :: rest => String (if b then "1" else "0")%char (path_text rest)
  end.

Definition line (e : list bool * D) : string :=
  path_text e.1 +:+ ": " +:+ show e.2 +:+ newline.

Fixpoint lines (l : list (list bool * D)) : string :=
  match l with
  | [] => EmptyString
  | e :: rest => line e +:+ lines rest
  end.

End Dump.

End NetTree.

(** ** class IPGuide

    Of [load_database] the branch that reads the CSV file is modelled, on
    the rows that [csv.reader] yields (each a list of strings); whether the
    file exists and whether a pickled copy is used instead is file-system
    state outside the model. [self.database] is a dictionary from the
    moment [load_database] starts; the lookups take that dictionary. *)

Module IPGuide.

(** The tuple [(network, asn, country)] attached to a node. *)
Definition record : Type := string * Z * string.

(** A tuple of three elements is not empty, hence true. *)
Definition truthy (r : record) : bool := true.

(** A value of [database['asn']] *)
Record asn_entry : Type := {
  name : string;
  country : string;
  networks : list string
}.

(** [self.database] *)
Record database : Type := {
  db_network : NetTree.node record;
  db_asn : gmap Z asn_entry;
  db_country : gmap string (list Z)
}.

(** *** Statements that read and update [self.database]

    A computation takes the database and gives the database it leaves
    behind, together with its value or the exception it raised. *)

Definition M (A : Type) : Type := database → database * result A.

Definition ret {A} (a : A) : M A := fun db => (db, OK a).

Definition bind {A B} (m : M A) (k : A → M B) : M B :=
  fun db =>
    match m db with
    | (db', OK a) => k a db'
    | (db', Raise e) => (db', Raise e)
    end.

Definition lift {A} (r : result A) : M A := fun db => (db, r).

Notation "'let*' x ':=' m 'in' k" := (bind m (fun x => k))
  (at level 10, x name, m at level 100, k at level 200, only parsing).
Notation "m ';;' k" := (bind m (fun _ => k))
  (at level 100, k at level 200, right associativity, only parsing).

(** [for x in l: body] *)
Fixpoint for_each {A} (l : list A) (body : A → M unit) : M unit :=
  match l with
  | [] => ret tt
  | x :: rest => body x ;; for_each rest body
  end.

Definition of_option {A} (e : exn) (o : option A) : result A :=
  match o with
  | Some a => OK a
  | None => Raise e
  end.

(** [self.database['network'].insert(network, data)] *)
Definition tree_insert (network : string) (d : record) : M unit :=
  fun db =>
    match NetTree.insert (db_network db) network d with
    | OK t => ({| db_network := t; db_asn := db_asn db;
                  db_country := db_country db |}, OK tt)
    | Raise e => (db, Raise e)
    end.

(** [self.database['asn'][asn] = entry] *)
Definition set_asn (asn : Z) (entry : asn_entry) : M unit :=
  fun db => ({| db_network := db_network db;
                db_asn := <[asn := entry]> (db_asn db);
                db_country := db_country db |}, OK tt).

(** [self.database['country'][c] = l] *)
Definition set_country (c : string) (l : list Z) : M unit :=
  fun db => ({| db_network := db_network db; db_asn := db_asn db;
                db_country := <[c := l]> (db_country db) |}, OK tt).

(** [asn not in self.database['asn']] and the same for countries *)
Definition asn_missing (asn : Z) : M bool :=
  fun db => (db, OK (bool_decide (db_asn db !! asn = None))).

Definition country_missing (c : string) : M bool :=
  fun db => (db, OK (bool_decide (db_country db !! c = None))).

(** [self.database['asn'][asn]['networks'].append(network)]; the
    subscript raises [KeyError] on a missing key. *)
Definition append_network (asn : Z) (network : string) : M unit :=
  fun db =>
    match db_asn db !! asn with
    | None => (db, Raise KeyError)
    | Some e =>
        set_asn asn {| name := name e; country := country e;
                       networks := networks e ++ [network] |} db
    end.

(** [self.database['country'][c].append(asn)] *)
Definition append_country (c : string) (asn : Z) : M unit :=
  fun db =>
    match db_country db !! c with
    | None => (db, Raise KeyError)
    | Some l => set_country c (l ++ [asn]) db
    end.

Definition private : list string :=
  ["10.0.0.0/8"; "127.0.0.0/8"; "172.16.0.0/12"; "192.168.0.0/16";
   "::1/128"; "fc00::/7"; "fe80::/10"].

(** The body of [for row in reader]. In the call
    [insert(row[0], (row[0], asn, row[3]))] the arguments, hence
    [row[3]], are evaluated before [insert] parses the network. *)
Definition load_row (row : list string) : M unit :=
  let* network := lift (Py.item row 0) in
  if String.eqb network "network" then
    for_each private (fun pnet => tree_insert pnet (pnet, 0%Z, "*")) ;;
    set_asn 0 {| name := "Locally routed network"; country := "*";
                 networks := private |} ;;
    set_country "*" [0%Z]
  else
    let* row1 := lift (Py.item row 1) in
    let* asn := lift (of_option ValueError (Py.int row1)) in
    let* row3 := lift (Py.item row 3) in
    tree_insert network (network, asn, row3) ;;
    let* new_asn := asn_missing asn in
    (if new_asn
     then let* row2 := lift (Py.item row 2) in
          set_asn asn {| name := row2; country := row3; networks := [] |}
     else ret tt) ;;
    append_network asn network ;;
    let* new_country := country_missing row3 in
    (if new_country then set_country row3 [] else ret tt) ;;
    append_country row3 asn.

(** The dictionary [load_database] starts from. *)
Definition new_database : database :=
  {| db_network := NetTree.empty; db_asn := ∅; db_country := ∅ |}.

(** [load_database(self)] on the rows of the file: the value of
    [self.database] after the call, and whether the call returned or
    raised. The attribute is assigned the new dictionary before the first
    row is read, whatever it held before ([old]), and the rows update
    that dictionary in place. *)
Definition load_database (old : option database) (rows : list (list string))
  : database * result unit :=
  for_each rows load_row new_database.

(** [find_network(self, network)] *)
Definition find_network (db : database) (network : string)
  : result (option record) :=
  NetTree.search truthy (db_network db) network.

(** [networks_for_asn(self, asn)] *)
Definition networks_for_asn (db : database) (asn : Z) : list string :=
  match db_asn db !! asn with
  | None => []
  | Some e => networks e
  end.

(** [find_asn(self, asn)] *)
Definition find_asn (db : database) (asn : Z) : option asn_entry :=
  db_asn db !! asn.

(** [find_country(self, country)] *)
Definition find_country (db : database) (c : string) : list Z :=
  default [] (db_country db !! c).

(** The argument of [get_networks]: a list of strings, or one string. *)
Inductive spec_arg : Type :=
| Str (s : string)
| List (l : list string).

(** [int(s.split(':')[1])] *)
Definition parse_asn (s : string) : result Z :=
  match Py.item (Py.split ":" s) 1 with
  | OK t => of_option ValueError (Py.int t)
  | Raise e => Raise e
  end.

(** The loop [for s in spec] with its accumulator [res]. *)
Fixpoint expand (db : database) (spec : list string) (res : list string)
  : result (list string) :=
  match spec with
  | [] => OK res
  | s :: rest =>
      if Py.startswith "ASN:" s then
        match parse_asn s with
        | OK asn => expand db rest (res ++ networks_for_asn db asn)
        | Raise e => Raise e
        end
      else expand db rest (res ++ [s])
  end.

(** [get_networks(self, spec)]: the [try] block and its handler, which
    logs and returns [spec] (by then a list in every case). *)
Definition get_networks (db : database) (spec : spec_arg)
  : result (list string) :=
  let spec := match spec with
              | Str s => [s]
              | List l => l
              end in
  match expand db spec [] with
  | OK res => OK res
  | Raise _ => OK spec
  end.

(** *** Vocabulary for the statements about the database *)

(** The header row of the table: its first field is [network]. *)
Definition is_header (row : list string) : bool :=
  match row with
  | network :: _ => String.eqb network "network"
  | [] => false
  end.

(** A record with a non-integer ASN or a network that does not parse. *)
Definition malformed (row : list string) : bool :=
  match row with
  | network :: asn :: _ =>
      negb (String.eqb network "network") &&
      (bool_decide (Py.int asn = None) ||
       bool_decide (ip_network network = None))
  | _ => false
  end.

(** What one row makes the load pass register for an ASN: the header row
    registers the private ranges for ASN 0, a data row its network for
    its own ASN. *)
Definition row_networks (asn : Z) (row : list string) : list string :=
  match row with
  | network :: rest =>
      if String.eqb network "network"
      then if bool_decide (asn = 0%Z) then private else []
      else match rest with
           | a :: _ => if bool_decide (Py.int a = Some asn)
                       then [network] else []
           | [] => []
           end
  | [] => []
  end.

(** The networks observed for an ASN over the rows, in order. *)
Definition observed (rows : list (list string)) (asn : Z) : list string :=
  flat_map (row_networks asn) rows.

(** The entry the header row registers for ASN 0. *)
Definition local_entry : asn_entry :=
  {| name := "Locally routed network"; country := "*";
     networks := private |}.

(** The effect of a data row on the two dictionaries. *)
Definition register_asn (m : gmap Z asn_entry)
    (asn : Z) (org c network : string) : gmap Z asn_entry :=
  match m !! asn with
  | None => <[asn := {| name := org; country := c;
                        networks := [network] |}]> m
  | Some e => <[asn := {| name := name e; country := country e;
                          networks := networks e ++ [network] |}]> m
  end.

Definition register_country (m : gmap string (list Z))
    (c : string) (asn : Z) : gmap string (list Z) :=
  <[c := default [] (m !! c) ++ [asn]]> m.

(** The database after a data row that does not raise. *)
Definition data_step (db : database) (network : string) (asn : Z)
    (org c : string) (net : ip_net) : database :=
  {| db_network := NetTree.insert_loop (db_network db) (NetTree.prefix net)
                     (network, asn, c);
     db_asn := register_asn (db_asn db) asn org c network;
     db_country := register_country (db_country db) c asn |}.

(** A specifier of the form [ASN:...] whose number does not parse. *)
Definition bad_specifier (s : string) : bool :=
  Py.startswith "ASN:" s &&
  match parse_asn s with
  | OK _ => false
  | Raise _ => true
  end.

(** The expansion of one specifier, in the words of the specification:
    the networks of the ASN for [ASN:<n>], the string itself otherwise. *)
Definition expand_one (db : database) (s : string) : list string :=
  if Py.startswith "ASN:" s then
    match parse_asn s with
    | OK asn => networks_for_asn db asn
    | Raise _ => []
    end
  else [s].

(** The database carries the synthetic entry for ASN 0 and the country
    [*] lists ASN 0. *)
Definition seeded (db : database) : Prop :=
  ∃ e l, db_asn db !! 0%Z = Some e ∧
         name e = "Locally routed network" ∧ country e = "*" ∧
         private `prefix_of` networks e ∧
         db_country db !! "*" = Some (0%Z :: l).

(** A data row that registers nothing for ASN 0. *)
Definition no_asn0 (row : list string) : bool :=
  is_header row || bool_decide (row_networks 0 row = []).

(** The table of the specification's scenario: the header row and two
    records, the second network inside the first. *)
Definition header_row : list string :=
  ["network"; "asn"; "organization"; "country"].

Definition example_table : list (list string) :=
  [header_row;
   ["1.2.3.0/24"; "100"; "ExampleOrg"; "US"];
   ["1.2.3.128/25"; "200"; "SubOrg"; "US"]].

Definition example_database : database :=
  fst (load_database None example_table).

(** *** More vocabulary: rows, countries and records *)

(** A row the loop of [load_database] gets through: the header row, or a
    row of at least four fields whose second field is an integer and whose
    first field is a network. *)
Definition well_formed (row : list string) : bool :=
  is_header row ||
  match row with
  | network :: asn :: _ :: _ :: _ =>
      bool_decide (is_Some (Py.int asn)) &&
      bool_decide (is_Some (ip_network network))
  | _ => false
  end.

(** What one row makes the load pass register for a country: the header
    row registers ASN 0 for [*], a data row its ASN for its country. *)
Definition row_countries (c : string) (row : list string) : list Z :=
  match row with
  | network :: rest =>
      if String.eqb network "network"
      then if bool_decide (c = "*") then [0%Z] else []
      else match rest with
           | a :: _ :: c' :: _ =>
               match Py.int a with
               | Some asn => if bool_decide (c' = c) then [asn] else []
               | None => []
               end
           | _ => []
           end
  | [] => []
  end.

Definition observed_countries (rows : list (list string)) (c : string)
  : list Z :=
  flat_map (row_countries c) rows.

(** The ASN of a data row, and the first data row of a table that carries
    a given ASN. *)
Definition row_asn (row : list string) : option Z :=
  match row with
  | _ :: a :: _ => Py.int a
  | _ => None
  end.

Definition first_row_for (asn : Z) (rows : list (list string))
  : option (list string) :=
  List.find (fun row => negb (is_header row) &&
                        bool_decide (row_asn row = Some asn)) rows.

(** The records the header row inserts, with their networks. *)
Definition seeds : list (string * record) :=
  map (fun pnet => (pnet, (pnet, 0%Z, "*"))) private.

(** The records a row puts into the tree, and those of a table. *)
Definition row_records (row : list string) : list record :=
  match row with
  | network :: rest =>
      if String.eqb network "network"
      then map snd seeds
      else match rest with
           | a :: _ :: c :: _ =>
               match Py.int a with
               | Some asn => [(network, asn, c)]
               | None => []
               end
           | _ => []
           end
  | [] => []
  end.

Definition table_records (rows : list (list string)) : list record :=
  flat_map row_records rows.

(** The insertions that build the tree of [example_database]. *)
Definition example_entries : list (string * record) :=
  seeds ++ [("1.2.3.0/24", ("1.2.3.0/24", 100%Z, "US"));
            ("1.2.3.128/25", ("1.2.3.128/25", 200%Z, "US"))].

(** Every record in the tree is listed under its ASN, and its ASN under
    its country. *)
Definition consistent (db : database) : Prop :=
  ∀ p n a c,
    NetTree.record_at (db_network db) p = Some (n, a, c) →
    n ∈ networks_for_asn db a ∧ a ∈ find_country db c.

End IPGuide.

(** * Properties *)

(** ** The tree: paths, insertion and search *)

Section TreeFacts.

Context {D : Type} (truthy : D → bool).

Implicit Types (t here n : NetTree.node D) (p q : list bool) (d : D).

Import NetTree.

Lemma child_set_child_eq here b c : child (set_child here b c) b = Some c.
Proof. destruct here, b; reflexivity. Qed.

Lemma child_set_child_ne here b b' c :
  b ≠ b' → child (set_child here b c) b' = child here b'.
Proof. destruct here, b, b'; intros Hne; try reflexivity; congruence. Qed.

Lemma data_set_child here b c : data (set_child here b c) = data here.
Proof. destruct here, b; reflexivity. Qed.

Lemma data_set_data here d : data (set_data here d) = Some d.
Proof. destruct here; reflexivity. Qed.

Lemma child_set_data here d b : child (set_data here d) b = child here b.
Proof. destruct here; reflexivity. Qed.

Lemma node_at_empty p : p ≠ [] → node_at (@empty D) p = None.
Proof. destruct p as [|[] p]; intros Hp; [congruence | reflexivity..]. Qed.

Lemma record_at_empty p : record_at (@empty D) p = None.
Proof. destruct p as [|[] p]; reflexivity. Qed.

Lemma node_at_app t p q :
  node_at t (p ++ q) =
  match node_at t p with
  | Some n => node_at n q
  | None => None
  end.
Proof.
  revert t. induction p as [|b p IH]; intros t; simpl; [reflexivity|].
  destruct (child t b); [apply IH | reflexivity].
Qed.

(** The node that [insert] reaches carries the new value. *)
Lemma record_at_insert_loop_eq t p d :
  record_at (insert_loop t p d) p = Some d.
Proof.
  unfold record_at. revert t. induction p as [|b p IH]; intros t; simpl.
  - apply data_set_data.
  - rewrite child_set_child_eq. apply IH.
Qed.

(** A path that is not an initial part of the inserted one leads to the
    same node, or to none, as before. *)
Lemma node_at_insert_loop_off t p d q :
  ¬ q `prefix_of` p → node_at (insert_loop t p d) q = node_at t q.
Proof.
  revert t q. induction p as [|b p IH]; intros t q Hq.
  - destruct q as [|b' q]; [exfalso; apply Hq; reflexivity|].
    simpl. rewrite child_set_data. reflexivity.
  - destruct q as [|b' q]; [exfalso; apply Hq, prefix_nil|].
    simpl. destruct (decide (b = b')) as [<-|Hne].
    + rewrite child_set_child_eq.
      assert (Hq' : ¬ q `prefix_of` p)
        by (intros Hpre; apply Hq, prefix_cons, Hpre).
      rewrite IH by exact Hq'.
      destruct (child t b) as [c|]; [reflexivity|].
      apply node_at_empty. intros ->. apply Hq', prefix_nil.
    + rewrite child_set_child_ne by exact Hne. reflexivity.
Qed.

(** Along the inserted path every node exists afterwards, and the nodes
    strictly above the end keep what they carried. *)
Lemma node_at_insert_loop_on t p d q :
  q `prefix_of` p → is_Some (node_at (insert_loop t p d) q).
Proof.
  revert t q. induction p as [|b p IH]; intros t q Hq.
  - apply prefix_nil_inv in Hq as ->. simpl. eauto.
  - destruct q as [|b' q]; [simpl; eauto|].
    apply prefix_cons_inv_1 in Hq as Hb. subst b'.
    apply prefix_cons_inv_2 in Hq.
    simpl. rewrite child_set_child_eq. apply IH, Hq.
Qed.

Lemma record_at_insert_loop_above t p d q :
  q `prefix_of` p → q ≠ p →
  record_at (insert_loop t p d) q = record_at t q.
Proof.
  unfold record_at. revert t q. induction p as [|b p IH]; intros t q Hq Hne.
  - apply prefix_nil_inv in Hq. congruence.
  - destruct q as [|b' q]; [simpl; apply data_set_child|].
    apply prefix_cons_inv_1 in Hq as Hb. subst b'.
    apply prefix_cons_inv_2 in Hq.
    assert (Hne' : q ≠ p) by congruence.
    simpl. rewrite child_set_child_eq, IH by assumption.
    destruct (child t b) as [c|]; [reflexivity|].
    fold (record_at (@empty D) q). apply record_at_empty.
Qed.

(** Frame: at every other path the attached value is unchanged. *)
Lemma record_at_insert_loop_ne t p d q :
  q ≠ p → record_at (insert_loop t p d) q = record_at t q.
Proof.
  intros Hne. destruct (decide (q `prefix_of` p)) as [Hq|Hq].
  - apply record_at_insert_loop_above; assumption.
  - unfold record_at. rewrite node_at_insert_loop_off by exact Hq.
    reflexivity.
Qed.

(** Nodes are never removed. *)
Lemma node_at_insert_loop_keeps t p d q :
  is_Some (node_at t q) → is_Some (node_at (insert_loop t p d) q).
Proof.
  intros Hn. destruct (decide (q `prefix_of` p)) as [Hq|Hq].
  - apply node_at_insert_loop_on, Hq.
  - rewrite node_at_insert_loop_off by exact Hq. exact Hn.
Qed.

(** *** What [search] returns *)

Lemma above_cons b p q : above p q → above (b :: p) (b :: q).
Proof.
  intros [Hp Hl]. split; [apply prefix_cons, Hp | simpl; lia].
Qed.

Lemma above_nil b q : above [] (b :: q).
Proof. split; [apply prefix_nil | simpl; lia]. Qed.

Lemma above_app p b q : above p (p ++ b :: q).
Proof.
  split; [apply prefix_app_r; reflexivity|].
  rewrite length_app. simpl. lia.
Qed.

Lemma remember_cases here net :
  remember truthy here net = net ∨
  ∃ d, data here = Some d ∧ truthy d = true ∧
       remember truthy here net = Some d.
Proof.
  unfold remember. destruct (data here) as [d|]; [|left; reflexivity].
  destruct (truthy d) eqn:Ht; [right; eauto | left; reflexivity].
Qed.

(** The walk down an existing path, then on from the node reached. *)
Lemma search_loop_app t p q net n :
  node_at t p = Some n →
  search_loop truthy t (p ++ q) net =
  search_loop truthy n q (search_loop truthy t p net).
Proof.
  revert t net. induction p as [|b p IH]; intros t net Hn; simpl in *.
  - congruence.
  - destruct (child t b) as [c|]; [apply IH, Hn | discriminate].
Qed.

(** The result is the initial [net] or a true value attached strictly
    above the end of the query path. *)
Lemma search_loop_result t q net :
  search_loop truthy t q net = net ∨
  ∃ p d, above p q ∧ record_at t p = Some d ∧ truthy d = true ∧
         search_loop truthy t q net = Some d.
Proof.
  revert t net. induction q as [|b q IH]; intros t net; simpl.
  - left; reflexivity.
  - assert (Hstep : ∀ r,
              r = remember truthy t net ∨
              (∃ p d, above p q ∧
                      (∃ c, child t b = Some c ∧ record_at c p = Some d) ∧
                      truthy d = true ∧ r = Some d) →
              r = net ∨
              ∃ p d, above p (b :: q) ∧ record_at t p = Some d ∧
                     truthy d = true ∧ r = Some d).
    { intros r [->|(p & d & Hp & (c & Hc & Hr) & Ht & ->)].
      - destruct (remember_cases t net) as [->|(d & Hd & Ht & ->)];
          [left; reflexivity|].
        right. exists [], d. split; [apply above_nil|]. auto.
      - right. exists (b :: p), d. split; [apply above_cons, Hp|].
        split; [|auto]. unfold record_at in *. simpl. rewrite Hc.
        exact Hr. }
    apply Hstep. destruct (child t b) as [c|] eqn:Hc; [|left; reflexivity].
    destruct (IH c (remember truthy t net))
      as [->|(p & d & Hp & Hr & Ht & ->)]; [left; reflexivity|].
    right. exists p, d. eauto 8.
Qed.


(** A true value attached strictly above the end of the query path is
    found, unless a deeper one on the path replaces it. *)
Lemma search_loop_found t p q d net :
  above p q → record_at t p = Some d → truthy d = true →
  ∃ p' d', search_loop truthy t q net = Some d' ∧
           p `prefix_of` p' ∧ above p' q ∧
           record_at t p' = Some d' ∧ truthy d' = true.
Proof.
  intros [[rest ->] Hlen] Hr Ht.
  destruct rest as [|b rest];
    [rewrite length_app in Hlen; simpl in Hlen; lia|].
  unfold record_at in Hr.
  destruct (node_at t p) as [n|] eqn:Hn; [|discriminate].
  rewrite (search_loop_app _ _ _ _ n Hn). simpl.
  assert (Hrem : remember truthy n (search_loop truthy t p net) = Some d)
    by (unfold remember; rewrite Hr, Ht; reflexivity).
  rewrite Hrem.
  assert (Hhere : record_at t p = Some d)
    by (unfold record_at; rewrite Hn; exact Hr).
  destruct (child n b) as [c|] eqn:Hc.
  - destruct (search_loop_result c rest (Some d))
      as [->|(p' & d' & Hp' & Hr' & Ht' & ->)].
    + exists p, d. split; [reflexivity|]. split; [reflexivity|].
      split; [apply above_app|]. auto.
    + exists (p ++ b :: p'), d'. split; [reflexivity|].
      split; [apply prefix_app_r; reflexivity|].
      split.
      { destruct Hp' as [Hpre Hl]. split.
        - apply prefix_app, prefix_cons, Hpre.
        - rewrite !length_app. simpl. lia. }
      split; [|exact Ht'].
      unfold record_at. rewrite node_at_app, Hn. simpl. rewrite Hc.
      exact Hr'.
  - exists p, d. split; [reflexivity|]. split; [reflexivity|].
    split; [apply above_app|]. auto.
Qed.

(** ... and it is the result when no deeper node on the path carries a
    true value. *)
Lemma search_loop_deepest t p q d net :
  above p q → record_at t p = Some d → truthy d = true →
  (∀ p' d', p `prefix_of` p' → p' ≠ p → above p' q →
            record_at t p' = Some d' → truthy d' = false) →
  search_loop truthy t q net = Some d.
Proof.
  intros Hp Hr Ht Hdeep.
  destruct (search_loop_found t p q d net Hp Hr Ht)
    as (p' & d' & -> & Hpp' & Hp' & Hr' & Ht').
  destruct (decide (p' = p)) as [->|Hne]; [congruence|].
  rewrite (Hdeep p' d' Hpp' Hne Hp' Hr') in Ht'. discriminate.
Qed.

(** The node at the very end of the query path is not looked at: a value
    inserted into the empty tree is not found by a query for its own
    path. *)
Lemma search_misses_exact_node q d :
  search_loop truthy (insert_loop empty q d) q None = None.
Proof.
  induction q as [|b q IH]; [reflexivity|].
  destruct b; simpl; exact IH.
Qed.

End TreeFacts.

(** ** The parser: the range of an IPv4 address *)

Section ParserFacts.

Import IPAddress.







End ParserFacts.

(** ** Bit paths *)

Section PathFacts.

Import NetTree.

Lemma length_bits a : List.length (bits a) = 128.
Proof. unfold bits. rewrite length_map, length_seq. reflexivity. Qed.






Lemma prefix_of_take {A} (l1 l : list A) (n : nat) :
  l1 `prefix_of` l → (List.length l1 ≤ n)%nat → l1 `prefix_of` take n l.
Proof.
  intros [k ->] Hn. rewrite take_app_ge by exact Hn.
  apply prefix_app_r. reflexivity.
Qed.

(** An address inside a network whose prefix is shorter than the query's:
    the network's node is strictly above the end of the query path. *)
Lemma contains_above net address :
  contains net address →
  List.length (prefix net) < List.length (prefix address) →
  above (prefix net) (prefix address).
Proof.
  intros Hc Hlen. split; [|exact Hlen].
  unfold contains in Hc. unfold prefix at 2.
  destruct (embed address) as [a pa] eqn:He. simpl in Hc.
  apply prefix_of_take; [exact Hc|].
  unfold prefix at 2 in Hlen. rewrite He in Hlen.
  rewrite length_take in Hlen. lia.
Qed.

(** The embedding, written with arithmetic in [embed], against the text
    that the program builds and parses again. *)
Example embed_matches_reparse :
  ip_network "10.0.0.0/8" = Some (IPv4Network 167772160 8) ∧
  ip_network "::ffff:10.0.0.0/104" =
    Some (IPv6Network (embed (IPv4Network 167772160 8)).1
                      (embed (IPv4Network 167772160 8)).2) ∧
  ip_network "192.0.2.5" = Some (IPv4Network 3221225989 32) ∧
  ip_network "::ffff:192.0.2.5/128" =
    Some (IPv6Network (embed (IPv4Network 3221225989 32)).1
                      (embed (IPv4Network 3221225989 32)).2).
Proof. repeat split; vm_compute; reflexivity. Qed.

End PathFacts.

(** ** The tree: the claims *)

Section TreeClaims.

Context {D : Type} (truthy : D → bool).

Implicit Types (t : NetTree.node D) (p q : list bool) (d : D).

Import NetTree.

(** Every value attached in a tree built by a sequence of insertions was
    there before or sits at the path of one of the inserted networks. *)
Lemma record_at_insert_all entries t t' p d :
  insert_all t entries = OK t' → record_at t' p = Some d →
  record_at t p = Some d ∨
  ∃ network net, (network, d) ∈ entries ∧
                 ip_network network = Some net ∧ prefix net = p.
Proof.
  revert t. induction entries as [|[network d0] entries IH];
    intros t Hall Hr; simpl in Hall.
  - left. congruence.
  - unfold insert in Hall.
    destruct (ip_network network) as [net|] eqn:Hnet; [|discriminate].
    destruct (IH _ Hall Hr) as [Hin|(nw & n' & Hin & Hn' & Hp)].
    + destruct (decide (p = prefix net)) as [->|Hne].
      * rewrite record_at_insert_loop_eq in Hin. injection Hin as ->.
        right. exists network, net. split; [left|]; auto.
      * rewrite record_at_insert_loop_ne in Hin by exact Hne. left; exact Hin.
    + right. exists nw, n'. split; [right; exact Hin|]. auto.
Qed.

(** The part of longest-prefix match that [search] does deliver: a true
    value attached at the node of a network is found for every address
    inside the network whose query path is longer than the network's
    prefix, or else a true value from a node further down that path. *)
Lemma search_finds_covering_record t net address a d :
  ip_network address = Some a →
  record_at t (prefix net) = Some d → truthy d = true →
  contains net a →
  List.length (prefix net) < List.length (prefix a) →
  ∃ p' d', search truthy t address = OK (Some d') ∧
           prefix net `prefix_of` p' ∧ above p' (prefix a) ∧
           record_at t p' = Some d' ∧ truthy d' = true.
Proof.
  intros Ha Hr Ht Hc Hlen. unfold search. rewrite Ha.
  destruct (search_loop_found truthy t _ _ d None
              (contains_above net a Hc Hlen) Hr Ht)
    as (p' & d' & -> & Hrest).
  exists p', d'. split; [reflexivity | exact Hrest].
Qed.

(** C9. Frame property of [insert]: inserting network [q] with value [d]
    attaches [d] at the node addressed by the bit path of [q]; at every
    other bit path the attached value is what it was; every path that does
    not lead towards that node leads to the same subtree as before (so
    the children below nodes off the path of [q] are untouched); and no
    node disappears. *)
Theorem insert_frame t network net d :
  ip_network network = Some net →
  ∃ t', insert t network d = OK t' ∧
        record_at t' (prefix net) = Some d ∧
        (∀ p, p ≠ prefix net → record_at t' p = record_at t p) ∧
        (∀ p, ¬ p `prefix_of` prefix net → node_at t' p = node_at t p) ∧
        (∀ p, is_Some (node_at t p) → is_Some (node_at t' p)).
Proof.
  intros Hnet. exists (insert_loop t (prefix net) d).
  unfold insert. rewrite Hnet. split; [reflexivity|].
  split; [apply record_at_insert_loop_eq|].
  split; [intros p Hp; apply record_at_insert_loop_ne, Hp|].
  split; [intros p Hp; apply node_at_insert_loop_off, Hp|].
  intros p Hp. apply node_at_insert_loop_keeps, Hp.
Qed.

(** C7, as amended. Inserting the same network twice with two values
    leaves the second one attached at the node of the network. A later
    search for an address inside the network, when the network's prefix
    is shorter than the query's, returns a true value attached at the
    node of the network or deeper on the path of the address; it returns
    the second value when no deeper node on that path carried a true
    value. *)
Theorem last_insert_wins t network net d1 d2 :
  ip_network network = Some net →
  ∃ t1 t2,
    insert t network d1 = OK t1 ∧ insert t1 network d2 = OK t2 ∧
    record_at t2 (prefix net) = Some d2 ∧
    ∀ address a,
      ip_network address = Some a → truthy d2 = true →
      contains net a →
      List.length (prefix net) < List.length (prefix a) →
      (∃ p' d', search truthy t2 address = OK (Some d') ∧
                prefix net `prefix_of` p' ∧ above p' (prefix a) ∧
                record_at t2 p' = Some d' ∧ truthy d' = true) ∧
      ((∀ p' d', prefix net `prefix_of` p' → p' ≠ prefix net →
                 above p' (prefix a) → record_at t p' = Some d' →
                 truthy d' = false) →
       search truthy t2 address = OK (Some d2)).
Proof.
  intros Hnet.
  exists (insert_loop t (prefix net) d1),
         (insert_loop (insert_loop t (prefix net) d1) (prefix net) d2).
  unfold insert. rewrite Hnet.
  split; [reflexivity|]. split; [reflexivity|].
  split; [apply record_at_insert_loop_eq|].
  intros address a Ha Ht Hc Hlen. unfold search. rewrite Ha.
  pose proof (contains_above net a Hc Hlen) as Habove.
  set (t2 := insert_loop _ _ d2).
  assert (Hr : record_at t2 (prefix net) = Some d2)
    by apply record_at_insert_loop_eq.
  split.
  - destruct (search_loop_found truthy t2 _ _ d2 None Habove Hr Ht)
      as (p' & d' & Hs & Hpp' & Hp' & Hr' & Ht').
    exists p', d'. rewrite Hs. auto.
  - intros Hdeep. f_equal.
    apply (search_loop_deepest truthy t2 (prefix net)); try assumption.
    intros p' d' Hpp' Hne Hp' Hr'. apply (Hdeep p' d' Hpp' Hne Hp').
    unfold t2 in Hr'.
    rewrite !record_at_insert_loop_ne in Hr' by exact Hne. exact Hr'.
Qed.



End TreeClaims.

(** ** The database: the effect of one row *)

Section LoadFacts.

Import IPGuide.

Implicit Types (db : database) (row : list string)
  (rows : list (list string)).

(** Inserting networks that parse changes the tree only and does not
    raise. *)
Lemma for_each_tree_insert (l : list string) (f : string → record) db :
  Forall (fun s => is_Some (ip_network s)) l →
  ∃ t, for_each l (fun s => tree_insert s (f s)) db =
       ({| db_network := t; db_asn := db_asn db;
           db_country := db_country db |}, OK tt).
Proof.
  intros Hl. revert db. induction Hl as [|s l [net Hs] _ IH]; intros db.
  - exists (db_network db). destruct db; reflexivity.
  - simpl. unfold bind, tree_insert at 1, NetTree.insert. rewrite Hs.
    destruct (IH {| db_network :=
                      NetTree.insert_loop (db_network db)
                        (NetTree.prefix net) (f s);
                    db_asn := db_asn db; db_country := db_country db |})
      as [t Ht].
    exists t. exact Ht.
Qed.

Lemma private_parse : Forall (fun s => is_Some (ip_network s)) private.
Proof. repeat constructor; vm_compute; eauto. Qed.

(** The header row: the private ranges go into the tree, ASN 0 and the
    country [*] are registered anew. It never raises. *)
Lemma load_row_header row db :
  is_header row = true →
  ∃ t, load_row row db =
       ({| db_network := t;
           db_asn := <[0%Z := local_entry]> (db_asn db);
           db_country := <["*" := [0%Z]]> (db_country db) |}, OK tt).
Proof.
  destruct row as [|network rest]; [discriminate|]. simpl. intros Hh.
  destruct (for_each_tree_insert private (fun s => (s, 0%Z, "*")) db
              private_parse) as [t Ht].
  exists t. unfold load_row, bind at 1, lift, Py.item.
  change ((network :: rest) !! 0) with (Some network). cbv iota beta.
  rewrite Hh. unfold bind at 1. unfold bind at 1. rewrite Ht. reflexivity.
Qed.

Lemma register_asn_twice (m : gmap Z asn_entry) asn org c network :
  m !! asn = None →
  <[asn := {| name := org; country := c; networks := [network] |}]>
    (<[asn := {| name := org; country := c; networks := [] |}]> m) =
  register_asn m asn org c network.
Proof.
  intros Hm. unfold register_asn. rewrite Hm, insert_insert_eq. reflexivity.
Qed.

(** A data row: what raises, in which order, and the database otherwise. *)
Lemma load_row_data row db network :
  row !! 0 = Some network → String.eqb network "network" = false →
  load_row row db =
  match row !! 1 with
  | None => (db, Raise IndexError)
  | Some a =>
      match Py.int a with
      | None => (db, Raise ValueError)
      | Some asn =>
          match row !! 3 with
          | None => (db, Raise IndexError)
          | Some c =>
              match ip_network network with
              | None => (db, Raise ValueError)
              | Some net =>
                  (data_step db network asn (default "" (row !! 2)) c net,
                   OK tt)
              end
          end
      end
  end.
Proof.
  intros H0 Hn. unfold load_row, bind at 1, lift at 1, Py.item at 1.
  rewrite H0, Hn. unfold bind at 1, lift at 1, Py.item at 1.
  destruct (row !! 1) as [a|]; [|reflexivity].
  unfold bind at 1, lift at 1, of_option.
  destruct (Py.int a) as [asn|]; [|reflexivity].
  unfold bind at 1, lift at 1, Py.item at 1.
  destruct (row !! 3) as [c|] eqn:H3; [|reflexivity].
  assert (H2 : is_Some (row !! 2)).
  { apply lookup_lt_is_Some. apply lookup_lt_Some in H3. lia. }
  destruct H2 as [org H2]. rewrite H2. simpl default.
  unfold bind at 1, tree_insert, NetTree.insert.
  destruct (ip_network network) as [net|]; [|reflexivity].
  unfold bind at 1, asn_missing. simpl db_asn.
  unfold data_step. unfold register_country.
  destruct (db_asn db !! asn) as [e|] eqn:He.
  - rewrite bool_decide_eq_false_2 by congruence.
    unfold bind at 1, ret. unfold bind at 1, append_network. simpl db_asn.
    rewrite He. unfold set_asn. simpl.
    unfold bind at 1, country_missing. simpl db_country.
    unfold register_asn. rewrite He.
    destruct (db_country db !! c) as [l|] eqn:Hc.
    + rewrite bool_decide_eq_false_2 by congruence.
      unfold bind at 1, ret, append_country. simpl db_country. rewrite Hc.
      reflexivity.
    + rewrite bool_decide_eq_true_2 by reflexivity.
      unfold bind at 1, set_country at 1, append_country. simpl.
      rewrite lookup_insert_eq. unfold set_country. simpl.
      rewrite insert_insert_eq. reflexivity.
  - rewrite bool_decide_eq_true_2 by reflexivity.
    unfold bind at 1. unfold bind at 1, lift, Py.item. rewrite H2.
    unfold set_asn at 1. unfold bind at 1, append_network. simpl db_asn.
    rewrite lookup_insert_eq. unfold set_asn. simpl.
    rewrite (register_asn_twice _ _ _ _ _ He).
    unfold bind at 1, country_missing. simpl db_country.
    destruct (db_country db !! c) as [l|] eqn:Hc.
    + rewrite bool_decide_eq_false_2 by congruence.
      unfold bind at 1, ret, append_country. simpl db_country. rewrite Hc.
      reflexivity.
    + rewrite bool_decide_eq_true_2 by reflexivity.
      unfold bind at 1, set_country at 1, append_country. simpl.
      rewrite lookup_insert_eq. unfold set_country. simpl.
      rewrite insert_insert_eq. reflexivity.
Qed.

(** A row that raises leaves the database as it found it. *)
Lemma load_row_raise_keeps row db db' e :
  load_row row db = (db', Raise e) → db' = db.
Proof.
  destruct row as [|network rest].
  - unfold load_row, bind, lift, Py.item. simpl. congruence.
  - destruct (String.eqb network "network") eqn:Hn.
    + destruct (load_row_header (network :: rest) db Hn) as [t ->].
      discriminate.
    + rewrite (load_row_data (network :: rest) db network eq_refl Hn).
      destruct (_ !! 1) as [a|]; [|congruence].
      destruct (Py.int a); [|congruence].
      destruct (_ !! 3); [|congruence].
      destruct (ip_network network); [discriminate|congruence].
Qed.

(** A malformed record raises. *)
Lemma load_row_malformed row db :
  malformed row = true → ∃ e, load_row row db = (db, Raise e).
Proof.
  destruct row as [|network [|a rest]]; try discriminate. simpl.
  intros H. apply andb_true_iff in H as [Hn Hbad].
  apply negb_true_iff in Hn.
  rewrite (load_row_data (network :: a :: rest) db network eq_refl Hn).
  change ((network :: a :: rest) !! 1) with (Some a). cbv iota beta.
  destruct (Py.int a) as [asn|] eqn:Ha; [|eauto].
  destruct (_ !! 3); [|eauto].
  destruct (ip_network network) eqn:Hnet; [|eauto].
  apply orb_true_iff in Hbad as [Hb|Hb];
    apply bool_decide_eq_true in Hb; discriminate.
Qed.

(** A row that returns: the header row or a well-formed data row. *)
Lemma load_row_ok_cases row db db' :
  load_row row db = (db', OK tt) →
  (is_header row = true ∧
   ∃ t, db' = {| db_network := t;
                 db_asn := <[0%Z := local_entry]> (db_asn db);
                 db_country := <["*" := [0%Z]]> (db_country db) |}) ∨
  (is_header row = false ∧
   ∃ network a rest asn org c net,
     row = network :: a :: rest ∧ Py.int a = Some asn ∧
     db' = data_step db network asn org c net).
Proof.
  destruct row as [|network rest].
  - unfold load_row, bind, lift, Py.item. simpl. discriminate.
  - simpl is_header. destruct (String.eqb network "network") eqn:Hn.
    + destruct (load_row_header (network :: rest) db Hn) as [t ->].
      intros [= <-]. left. eauto.
    + rewrite (load_row_data (network :: rest) db network eq_refl Hn).
      destruct rest as [|a rest]; [discriminate|].
      change ((network :: a :: rest) !! 1) with (Some a). cbv iota beta.
      destruct (Py.int a) as [asn|] eqn:Ha; [|discriminate].
      destruct (_ !! 3) as [c|]; [|discriminate].
      destruct (ip_network network) as [net|]; [|discriminate].
      intros [= <-]. right. split; [reflexivity|]. eauto 10.
Qed.

(** A loop that gets through a list gets through its initial part, and
    through the rest from where that part left the database. *)
Lemma for_each_app_ok {A} (l1 l2 : list A) (body : A → M unit) db db' :
  for_each (l1 ++ l2) body db = (db', OK tt) →
  ∃ db1, for_each l1 body db = (db1, OK tt) ∧
         for_each l2 body db1 = (db', OK tt).
Proof.
  revert db. induction l1 as [|x l1 IH]; intros db; simpl.
  - eauto.
  - unfold bind. destruct (body x db) as [db1 [[]|e]]; [apply IH|discriminate].
Qed.

(** Rows the loop gets through hold no malformed record. *)
Lemma for_each_ok_not_malformed rows db db' :
  for_each rows load_row db = (db', OK tt) →
  Forall (fun row => malformed row = false) rows.
Proof.
  revert db. induction rows as [|row rows IH]; intros db; simpl.
  - constructor.
  - unfold bind. destruct (load_row row db) as [db1 [[]|e1]] eqn:Hrow;
      [|discriminate].
    intros Hrest. constructor; [|exact (IH _ Hrest)].
    destruct (malformed row) eqn:Hbad; [|reflexivity].
    destruct (load_row_malformed row db Hbad) as [e He].
    rewrite He in Hrow. discriminate.
Qed.

(** The load stops at the first row that raises. *)
Lemma for_each_raise_split rows db db' e :
  for_each rows load_row db = (db', Raise e) →
  ∃ pre bad post,
    rows = pre ++ bad :: post ∧
    for_each pre load_row db = (db', OK tt) ∧
    load_row bad db' = (db', Raise e).
Proof.
  revert db. induction rows as [|row rows IH]; intros db; simpl.
  - discriminate.
  - unfold bind. destruct (load_row row db) as [db1 [[]|e1]] eqn:Hrow.
    + intros H. destruct (IH _ H) as (pre & bad & post & -> & Hpre & Hbad).
      exists (row :: pre), bad, post. split; [reflexivity|].
      split; [|exact Hbad]. simpl. unfold bind. rewrite Hrow. exact Hpre.
    + intros [= <- <-].
      pose proof (load_row_raise_keeps _ _ _ _ Hrow) as ->.
      exists [], row, rows. split; [reflexivity|].
      split; [reflexivity | exact Hrow].
Qed.

Lemma for_each_malformed_raises rows :
  Exists (fun row => malformed row = true) rows →
  ∀ db, ∃ db' e, for_each rows load_row db = (db', Raise e).
Proof.
  induction 1 as [row rows Hbad|row rows _ IH]; intros db; simpl;
    unfold bind.
  - destruct (load_row_malformed row db Hbad) as [e ->]. eauto.
  - destruct (load_row row db) as [db1 [[]|e1]]; [apply IH | eauto].
Qed.

(** *** The seed of the header row *)

Lemma seeded_header t db :
  seeded {| db_network := t;
            db_asn := <[0%Z := local_entry]> (db_asn db);
            db_country := <["*" := [0%Z]]> (db_country db) |}.
Proof.
  exists local_entry, []. simpl. rewrite !lookup_insert_eq.
  repeat split; reflexivity.
Qed.

Lemma seeded_data_step db network asn org c net :
  seeded db → seeded (data_step db network asn org c net).
Proof.
  intros (e & l & He & Hname & Hcountry & Hnets & Hl).
  unfold seeded, data_step, register_asn, register_country. simpl.
  assert (Hasn : ∃ e', (match db_asn db !! asn with
                        | Some e0 => <[asn := {| name := name e0;
                                                 country := country e0;
                                                 networks := networks e0 ++ [network] |}]> (db_asn db)
                        | None => <[asn := {| name := org; country := c;
                                              networks := [network] |}]> (db_asn db)
                        end) !! 0%Z = Some e' ∧
                      name e' = "Locally routed network" ∧
                      country e' = "*" ∧
                      private `prefix_of` networks e').
  { destruct (decide (asn = 0%Z)) as [->|Hne].
    - rewrite He, lookup_insert_eq. eexists. split; [reflexivity|].
      simpl. repeat split; try assumption. apply prefix_app_r, Hnets.
    - destruct (db_asn db !! asn); rewrite lookup_insert_ne by exact Hne;
        eauto. }
  destruct Hasn as (e' & He' & Hn' & Hc' & Hp').
  destruct (decide (c = "*")) as [->|Hne].
  - exists e', (l ++ [asn]). rewrite lookup_insert_eq, Hl. simpl. auto.
  - exists e', l. rewrite lookup_insert_ne by exact Hne. auto.
Qed.

Lemma for_each_seeded rows db db' :
  for_each rows load_row db = (db', OK tt) →
  seeded db ∨ Exists (fun row => is_header row = true) rows →
  seeded db'.
Proof.
  revert db. induction rows as [|row rows IH]; intros db; simpl.
  - intros [= <-] [Hs|Hex]; [exact Hs | inversion Hex].
  - unfold bind. destruct (load_row row db) as [db1 [[]|e1]] eqn:Hrow;
      [|discriminate].
    intros Hrest Hor. apply (IH db1 Hrest).
    destruct (load_row_ok_cases _ _ _ Hrow)
      as [[Hh (t & ->)]|[Hh (n & a & rest & asn & org & c & net & -> & _ & ->)]].
    + left. apply seeded_header.
    + destruct Hor as [Hs|Hex].
      * left. apply seeded_data_step, Hs.
      * right. inversion Hex; subst; [congruence | assumption].
Qed.

End LoadFacts.

(** ** The database: networks by ASN *)

Section AsnFacts.

Import IPGuide.

Implicit Types (db : database) (row : list string)
  (rows : list (list string)).

Lemma networks_for_asn_header t db asn :
  networks_for_asn
    {| db_network := t;
       db_asn := <[0%Z := local_entry]> (db_asn db);
       db_country := <["*" := [0%Z]]> (db_country db) |} asn =
  if bool_decide (asn = 0%Z) then private else networks_for_asn db asn.
Proof.
  unfold networks_for_asn. simpl. case_bool_decide as Hasn.
  - subst asn. rewrite lookup_insert_eq. reflexivity.
  - rewrite lookup_insert_ne by congruence. reflexivity.
Qed.

(** A data row appends its network to the list of its ASN and leaves the
    lists of the other ASNs alone. *)
Lemma networks_for_asn_data_step db network asn' org c net asn :
  networks_for_asn (data_step db network asn' org c net) asn =
  networks_for_asn db asn ++
  (if bool_decide (Some asn' = Some asn) then [network] else []).
Proof.
  unfold networks_for_asn, data_step, register_asn. simpl.
  case_bool_decide as Hasn.
  - injection Hasn as ->.
    destruct (db_asn db !! asn); rewrite lookup_insert_eq; reflexivity.
  - assert (asn' ≠ asn) by congruence.
    destruct (db_asn db !! asn'); rewrite lookup_insert_ne by assumption;
      rewrite app_nil_r; reflexivity.
Qed.

Lemma for_each_data_networks rows db db' asn :
  Forall (fun row => is_header row = false) rows →
  for_each rows load_row db = (db', OK tt) →
  networks_for_asn db' asn = networks_for_asn db asn ++ observed rows asn.
Proof.
  intros Hdata. revert db.
  induction Hdata as [|row rows Hrow _ IH]; intros db; simpl.
  - intros [= <-]. rewrite app_nil_r. reflexivity.
  - unfold bind. destruct (load_row row db) as [db1 [[]|e1]] eqn:Hload;
      [|discriminate].
    intros Hrest. rewrite (IH _ Hrest).
    destruct (load_row_ok_cases _ _ _ Hload)
      as [[Hh _]|[_ (n & a & rest & asn' & org & c & net & -> & Ha & ->)]];
      [congruence|].
    rewrite networks_for_asn_data_step. unfold observed at 2. simpl.
    simpl in Hrow. rewrite Hrow, Ha, <- app_assoc. reflexivity.
Qed.

(** For an ASN other than 0 the header row changes nothing, wherever it
    stands. *)
Lemma for_each_networks_nonzero rows db db' asn :
  asn ≠ 0%Z →
  for_each rows load_row db = (db', OK tt) →
  networks_for_asn db' asn = networks_for_asn db asn ++ observed rows asn.
Proof.
  intros Hasn. revert db. induction rows as [|row rows IH]; intros db; simpl.
  - intros [= <-]. rewrite app_nil_r. reflexivity.
  - unfold bind. destruct (load_row row db) as [db1 [[]|e1]] eqn:Hload;
      [|discriminate].
    intros Hrest. rewrite (IH _ Hrest). unfold observed at 2. simpl.
    rewrite app_assoc. f_equal.
    destruct (load_row_ok_cases _ _ _ Hload)
      as [[Hh (t & ->)]|[Hh (n & a & rest & asn' & org & c & net & -> & Ha & ->)]].
    + rewrite networks_for_asn_header.
      destruct row as [|n r]; [discriminate|]. simpl in *. rewrite Hh.
      rewrite bool_decide_eq_false_2 by exact Hasn.
      rewrite app_nil_r. reflexivity.
    + rewrite networks_for_asn_data_step. simpl in *. rewrite Hh, Ha.
      reflexivity.
Qed.

Lemma networks_for_asn_new asn : networks_for_asn new_database asn = [].
Proof. unfold networks_for_asn. simpl. rewrite lookup_empty. reflexivity. Qed.

(** With the header in first place, if anywhere, the list of an ASN is
    what the rows registered for it. *)
Lemma for_each_header_first rows db asn :
  Forall (fun row => is_header row = false) (tail rows) →
  for_each rows load_row new_database = (db, OK tt) →
  networks_for_asn db asn = observed rows asn.
Proof.
  destruct rows as [|row rows]; simpl tail; intros Hdata.
  - simpl. intros [= <-]. apply networks_for_asn_new.
  - destruct (is_header row) eqn:Hh.
    + simpl. unfold bind.
      destruct (load_row_header row new_database Hh) as [t ->].
      intros Hrest. rewrite (for_each_data_networks _ _ _ asn Hdata Hrest).
      rewrite networks_for_asn_header, networks_for_asn_new.
      unfold observed. simpl. f_equal.
      destruct row as [|n r]; [discriminate|]. simpl in *. rewrite Hh.
      destruct (bool_decide (asn = 0%Z)); reflexivity.
    + intros Hall.
      rewrite (for_each_data_networks (row :: rows) _ _ asn
                 (Forall_cons_2 _ _ _ Hh Hdata) Hall).
      rewrite networks_for_asn_new. reflexivity.
Qed.

(** When no data row carries ASN 0, the list of ASN 0 is the private
    ranges from the header row on. *)
Lemma for_each_asn0 rows db db' :
  Forall (fun row => no_asn0 row = true) rows →
  for_each rows load_row db = (db', OK tt) →
  networks_for_asn db 0 = private ∨
    Exists (fun row => is_header row = true) rows →
  networks_for_asn db' 0 = private.
Proof.
  intros Hall. revert db.
  induction Hall as [|row rows Hrow _ IH]; intros db; simpl.
  - intros [= <-] [H|H]; [exact H | inversion H].
  - unfold bind. destruct (load_row row db) as [db1 [[]|e1]] eqn:Hload;
      [|discriminate].
    intros Hrest Hor. apply (IH _ Hrest).
    destruct (load_row_ok_cases _ _ _ Hload)
      as [[Hh (t & ->)]|[Hh (n & a & rest & asn' & org & c & net & -> & Ha & ->)]].
    + left. apply networks_for_asn_header.
    + destruct Hor as [Hp|Hex].
      * left. rewrite networks_for_asn_data_step, Hp.
        unfold no_asn0 in Hrow. rewrite Hh in Hrow. simpl in Hrow, Hh.
        rewrite Hh, Ha in Hrow.
        destruct (bool_decide (Some asn' = Some 0%Z));
          [discriminate | apply app_nil_r].
      * right. inversion Hex; subst; [congruence | assumption].
Qed.

End AsnFacts.

(** ** The expansion of specifiers *)

Section SpecifierFacts.

Import IPGuide.

Implicit Types (db : database) (spec res : list string).

Lemma expand_ok db spec res :
  Forall (fun s => bad_specifier s = false) spec →
  expand db spec res = OK (res ++ flat_map (expand_one db) spec).
Proof.
  intros Hall. revert res.
  induction Hall as [|s spec Hs _ IH]; intros res; simpl.
  - rewrite app_nil_r. reflexivity.
  - assert (Hone : expand_one db s =
                   if Py.startswith "ASN:" s then
                     match parse_asn s with
                     | OK asn => networks_for_asn db asn
                     | Raise _ => []
                     end
                   else [s]) by reflexivity.
    unfold bad_specifier in Hs. rewrite Hone.
    destruct (Py.startswith "ASN:" s).
    + destruct (parse_asn s) as [asn|e]; [|discriminate].
      rewrite IH, app_assoc. reflexivity.
    + rewrite IH, <- app_assoc. reflexivity.
Qed.

Lemma expand_bad db spec :
  Exists (fun s => bad_specifier s = true) spec →
  ∀ res, ∃ e, expand db spec res = Raise e.
Proof.
  induction 1 as [s spec Hs|s spec _ IH]; intros res; simpl.
  - unfold bad_specifier in Hs. apply andb_true_iff in Hs as [-> Hs].
    destruct (parse_asn s); [discriminate | eauto].
  - destruct (Py.startswith "ASN:" s); [|apply IH].
    destruct (parse_asn s); [apply IH | eauto].
Qed.

End SpecifierFacts.

(** ** The database: the claims *)

Section DatabaseClaims.

Import IPGuide.

Implicit Types (db : database) (rows : list (list string))
  (old : option database).

(** C2, as amended. The private ranges are seeded when the load meets the
    header row, not before the first row: after a completed load of a
    table that has a header row, [find_asn(0)] is an entry named
    "Locally routed network" whose networks include 10.0.0.0/8 and
    127.0.0.0/8, and [find_country('*')] contains 0. *)
Theorem load_seeds_on_header old rows db :
  load_database old rows = (db, OK tt) →
  Exists (fun row => is_header row = true) rows →
  ∃ e, find_asn db 0 = Some e ∧
       name e = "Locally routed network" ∧
       "10.0.0.0/8" ∈ networks e ∧ "127.0.0.0/8" ∈ networks e ∧
       0%Z ∈ find_country db "*".
Proof.
  intros Hload Hh.
  destruct (for_each_seeded rows new_database db Hload (or_intror Hh))
    as (e & l & He & Hname & _ & Hnets & Hl).
  exists e. unfold find_asn, find_country. rewrite Hl. simpl.
  split; [exact He|]. split; [exact Hname|].
  destruct Hnets as [k ->].
  split; [|split]; [| |left].
  - apply elem_of_app. left. unfold private. set_solver.
  - apply elem_of_app. left. unfold private. set_solver.
Qed.

(** C3, as amended. When some record has a non-integer ASN or a network
    that does not parse, the load raises: it gets through the rows before
    the first row it cannot process, none of which is such a record,
    raises what that row raises and reads no further. It does not roll
    back: [self.database] is then the index built from the rows before
    that row, in place of whatever it held, and [networks_for_asn] answers
    from it with the networks those rows registered. *)
Theorem load_aborts_at_malformed_record old rows :
  Exists (fun row => malformed row = true) rows →
  ∃ pre bad post db e,
    rows = pre ++ bad :: post ∧
    Forall (fun row => malformed row = false) pre ∧
    load_database old pre = (db, OK tt) ∧
    load_row bad db = (db, Raise e) ∧
    load_database old rows = (db, Raise e) ∧
    ∀ asn, asn ≠ 0%Z → networks_for_asn db asn = observed pre asn.
Proof.
  intros Hbad. unfold load_database.
  destruct (for_each_malformed_raises rows Hbad new_database)
    as (db & e & Hraise).
  destruct (for_each_raise_split _ _ _ _ Hraise)
    as (pre & bad & post & -> & Hpre & Hrow).
  exists pre, bad, post, db, e.
  split; [reflexivity|].
  split; [exact (for_each_ok_not_malformed _ _ _ Hpre)|].
  split; [exact Hpre|]. split; [exact Hrow|]. split; [exact Hraise|].
  intros asn Hasn.
  rewrite (for_each_networks_nonzero pre _ _ asn Hasn Hpre).
  rewrite networks_for_asn_new. reflexivity.
Qed.

(** C8, as amended. After a load, [networks_for_asn(asn)] is the list of
    the networks the rows registered for that ASN, in the order of the rows
    and with repetitions, for every ASN other than 0, and for ASN 0 (for
    which the header row registers the private ranges) when the header
    row, if present, is the first row; a header row that comes later
    registers ASN 0 anew. For an ASN with no entry it is the empty list. *)
Theorem networks_for_asn_observed old rows db asn :
  load_database old rows = (db, OK tt) →
  asn ≠ 0%Z ∨ Forall (fun row => is_header row = false) (tail rows) →
  networks_for_asn db asn = observed rows asn ∧
  ∀ db' asn', find_asn db' asn' = None → networks_for_asn db' asn' = [].
Proof.
  intros Hload Hdata. split.
  - destruct Hdata as [Hasn|Hdata].
    + rewrite (for_each_networks_nonzero rows _ _ asn Hasn Hload).
      rewrite networks_for_asn_new. reflexivity.
    + apply for_each_header_first; assumption.
  - intros db' asn'. unfold find_asn, networks_for_asn. intros ->.
    reflexivity.
Qed.

(** C5. [get_networks] never raises: on every list it returns a list,
    and when some item that starts with [ASN:] has no integer after the
    colon it returns the list it was given. *)
Theorem get_networks_never_raises db (spec : list string) :
  (∃ l, get_networks db (List spec) = OK l) ∧
  (Exists (fun s => bad_specifier s = true) spec →
   get_networks db (List spec) = OK spec).
Proof.
  unfold get_networks. split.
  - destruct (expand db spec []); eauto.
  - intros Hbad. destruct (expand_bad db spec Hbad []) as [e ->].
    reflexivity.
Qed.

(** C6, as amended. When every [ASN:<n>] item carries an integer,
    [get_networks] returns, in the order of the items, the networks of ASN
    [n] for each such item and the string itself for every other item. In
    particular [["ASN:0", "8.8.8.8"]] gives the networks of ASN 0 followed
    by 8.8.8.8. After the load of a table with a header row these are the
    private ranges followed by the networks of the records with ASN 0
    after the last header row: the private ranges alone when no record
    carries ASN 0. *)
Theorem get_networks_expands :
  (∀ db (spec : list string),
     Forall (fun s => bad_specifier s = false) spec →
     get_networks db (List spec) = OK (flat_map (expand_one db) spec)) ∧
  (∀ db, get_networks db (List ["ASN:0"; "8.8.8.8"]) =
         OK (networks_for_asn db 0 ++ ["8.8.8.8"])) ∧
  (∀ old pre hdr post db,
     load_database old (pre ++ hdr :: post) = (db, OK tt) →
     is_header hdr = true →
     Forall (fun row => is_header row = false) post →
     get_networks db (List ["ASN:0"; "8.8.8.8"]) =
     OK (private ++ observed post 0 ++ ["8.8.8.8"])) ∧
  (∀ old rows db,
     load_database old rows = (db, OK tt) →
     Exists (fun row => is_header row = true) rows →
     Forall (fun row => no_asn0 row = true) rows →
     get_networks db (List ["ASN:0"; "8.8.8.8"]) =
     OK (private ++ ["8.8.8.8"])).
Proof.
  assert (Hgen : ∀ db (spec : list string),
             Forall (fun s => bad_specifier s = false) spec →
             get_networks db (List spec) =
             OK (flat_map (expand_one db) spec)).
  { intros db spec Hok. unfold get_networks.
    rewrite (expand_ok db spec [] Hok). reflexivity. }
  assert (Hzero : ∀ db, get_networks db (List ["ASN:0"; "8.8.8.8"]) =
                        OK (networks_for_asn db 0 ++ ["8.8.8.8"])).
  { intros db. rewrite Hgen by (repeat constructor). reflexivity. }
  split; [exact Hgen|]. split; [exact Hzero|]. split.
  - intros old pre hdr post db Hload Hh Hpost. rewrite Hzero.
    unfold load_database in Hload.
    apply for_each_app_ok in Hload as (db1 & _ & Hload).
    simpl in Hload. unfold bind in Hload.
    destruct (load_row_header hdr db1 Hh) as [t Ht]. rewrite Ht in Hload.
    rewrite (for_each_data_networks post _ _ 0%Z Hpost Hload).
    rewrite networks_for_asn_header.
    rewrite bool_decide_eq_true_2 by reflexivity.
    rewrite <- app_assoc. reflexivity.
  - intros old rows db Hload Hh Hno. rewrite Hzero.
    rewrite (for_each_asn0 rows new_database db Hno Hload (or_intror Hh)).
    reflexivity.
Qed.

(** C10. Called with one string instead of a list, [get_networks]
    behaves as on the one-element list of that string, and returns a
    list. *)
Theorem get_networks_single db (s : string) :
  get_networks db (Str s) = get_networks db (List [s]) ∧
  ∃ l, get_networks db (Str s) = OK l.
Proof.
  split; [reflexivity|].
  unfold get_networks. destruct (expand db [s] []); eauto.
Qed.

End DatabaseClaims.

(** ** Runs on concrete inputs *)

Section Runs.

Import IPGuide.

(** A run of the program on given inputs is settled by evaluation, and so
    are decidable facts about given lists (a path is an initial part of
    another). *)
Local Ltac run := vm_compute; reflexivity.

Local Ltac by_evaluation :=
  unfold NetTree.contains; apply (bool_decide_unpack _);
  vm_compute; exact I.

(** C1. [search] looks at a node before it follows the next bit and
    returns after the last bit without looking at the node it has
    reached: a value attached at depth equal to the length of the query
    is not found. A network inserted into the empty tree is not found by
    a query of its own prefix length; in particular the host network
    [::1/128], which the header row seeds, is not found by its address
    [::1], and neither is an IPv4 host network by its address. *)
Theorem host_route_not_found :
  (∀ (net : ip_net) (d : record),
     NetTree.search_loop truthy
       (NetTree.insert_loop NetTree.empty (NetTree.prefix net) d)
       (NetTree.prefix net) None = None) ∧
  (∃ t, NetTree.insert NetTree.empty "::1/128" ("::1/128", 0%Z, "*") = OK t ∧
        ip_network "::1/128" = Some (IPv6Network 1 128) ∧
        ip_network "::1" = Some (IPv6Network 1 128) ∧
        NetTree.contains (IPv6Network 1 128) (IPv6Network 1 128) ∧
        NetTree.record_at t (NetTree.prefix (IPv6Network 1 128)) =
          Some ("::1/128", 0%Z, "*") ∧
        NetTree.search truthy t "::1" = OK None) ∧
  (∃ db, load_database None [header_row] = (db, OK tt) ∧
         In "::1/128" (networks_for_asn db 0) ∧
         find_network db "::1" = OK None) ∧
  (∃ t, NetTree.insert NetTree.empty "192.0.2.5/32"
          ("192.0.2.5/32", 64500%Z, "ZZ") = OK t ∧
        ip_network "192.0.2.5" = Some (IPv4Network 3221225989 32) ∧
        NetTree.search truthy t "192.0.2.5" = OK None).
Proof.
  split; [intros net d; apply search_misses_exact_node|].
  split; [|split].
  - exists (NetTree.insert_loop NetTree.empty
              (NetTree.prefix (IPv6Network 1 128)) ("::1/128", 0%Z, "*")).
    split; [run|]. split; [run|]. split; [run|].
    split; [by_evaluation|]. split; run.
  - exists (fst (load_database None [header_row])).
    split; [run|]. split; [|run].
    vm_compute. do 4 right. left. reflexivity.
  - exists (NetTree.insert_loop NetTree.empty
              (NetTree.prefix (IPv4Network 3221225989 32))
              ("192.0.2.5/32", 64500%Z, "ZZ")).
    split; [run|]. split; run.
Qed.

(** C2, the claim as stated fails: a table without a header row loads
    and leaves ASN 0 and the country [*] unregistered. *)
Lemma load_without_header_not_seeded :
  ∃ db, load_database None (tail example_table) = (db, OK tt) ∧
        find_asn db 0 = None ∧ find_country db "*" = [].
Proof.
  exists (fst (load_database None (tail example_table))).
  split; [run|]. split; run.
Qed.

(** The scenario of the specification: the more specific network wins,
    the less specific one covers the rest, both ASNs are listed under their
    country, and the private ranges answer for their addresses. *)
Example scenario :
  find_network example_database "1.2.3.200" =
    OK (Some ("1.2.3.128/25", 200%Z, "US")) ∧
  find_network example_database "1.2.3.10" =
    OK (Some ("1.2.3.0/24", 100%Z, "US")) ∧
  find_network example_database "192.168.0.3" =
    OK (Some ("192.168.0.0/16", 0%Z, "*")) ∧
  find_network example_database "8.8.8.8" = OK None ∧
  find_country example_database "US" = [100%Z; 200%Z] ∧
  networks_for_asn example_database 200 = ["1.2.3.128/25"].
Proof. repeat split; run. Qed.

Lemma example_table_loads :
  load_database None example_table = (example_database, OK tt).
Proof. run. Qed.

Lemma load_seeds_on_header_witness :
  load_database None example_table = (example_database, OK tt) ∧
  Exists (fun row => is_header row = true) example_table ∧
  ∃ e, find_asn example_database 0 = Some e ∧
       name e = "Locally routed network" ∧
       "10.0.0.0/8" ∈ networks e ∧ "127.0.0.0/8" ∈ networks e ∧
       0%Z ∈ find_country example_database "*".
Proof.
  assert (Hh : Exists (fun row => is_header row = true) example_table)
    by (left; reflexivity).
  split; [exact example_table_loads|]. split; [exact Hh|].
  exact (load_seeds_on_header None example_table example_database
           example_table_loads Hh).
Defined.

(** C3, the claim as stated fails: a reload that meets a malformed
    record raises and leaves the index of the rows before it, which
    answers differently from the index that was there before. *)
Lemma failed_load_leaves_partial_index :
  ∃ db_old db,
    load_database None [header_row] = (db_old, OK tt) ∧
    malformed ["1.2.3.128/25"; "x200"; "SubOrg"; "US"] = true ∧
    load_database (Some db_old)
      [header_row;
       ["1.2.3.0/24"; "100"; "ExampleOrg"; "US"];
       ["1.2.3.128/25"; "x200"; "SubOrg"; "US"]] = (db, Raise ValueError) ∧
    find_asn db_old 100 = None ∧
    find_asn db 100 =
      Some {| name := "ExampleOrg"; country := "US";
              networks := ["1.2.3.0/24"] |} ∧
    find_network db_old "1.2.3.10" = OK None ∧
    find_network db "1.2.3.10" = OK (Some ("1.2.3.0/24", 100%Z, "US")).
Proof.
  exists (fst (load_database None [header_row])),
         (fst (load_database None
                 [header_row;
                  ["1.2.3.0/24"; "100"; "ExampleOrg"; "US"];
                  ["1.2.3.128/25"; "x200"; "SubOrg"; "US"]])).
  split; [run|]. split; [run|]. split; [run|]. split; [run|].
  split; [run|]. split; run.
Qed.

Lemma load_aborts_at_malformed_record_witness :
  Exists (fun row => malformed row = true)
    [header_row;
     ["1.2.3.0/24"; "100"; "ExampleOrg"; "US"];
     ["1.2.3.128/25"; "x200"; "SubOrg"; "US"];
     ["5.6.7.0/24"; "300"; "Other"; "DE"]] ∧
  ∃ pre bad post db e,
    [header_row;
     ["1.2.3.0/24"; "100"; "ExampleOrg"; "US"];
     ["1.2.3.128/25"; "x200"; "SubOrg"; "US"];
     ["5.6.7.0/24"; "300"; "Other"; "DE"]] = pre ++ bad :: post ∧
    Forall (fun row => malformed row = false) pre ∧
    load_database None pre = (db, OK tt) ∧
    load_row bad db = (db, Raise e) ∧
    load_database None
      [header_row;
       ["1.2.3.0/24"; "100"; "ExampleOrg"; "US"];
       ["1.2.3.128/25"; "x200"; "SubOrg"; "US"];
       ["5.6.7.0/24"; "300"; "Other"; "DE"]] = (db, Raise e) ∧
    ∀ asn, asn ≠ 0%Z → networks_for_asn db asn = observed pre asn.
Proof.
  assert (Hbad : Exists (fun row => malformed row = true)
                   [header_row;
                    ["1.2.3.0/24"; "100"; "ExampleOrg"; "US"];
                    ["1.2.3.128/25"; "x200"; "SubOrg"; "US"];
                    ["5.6.7.0/24"; "300"; "Other"; "DE"]])
    by (right; right; left; run).
  split; [exact Hbad|].
  exact (load_aborts_at_malformed_record None _ Hbad).
Defined.



(** C7, the claim as stated fails: with the more specific 10.1.0.0/16 in
    the tree, an address of 10.0.0.0/8 that lies in it gets the value of
    10.1.0.0/16 and not the value inserted last for 10.0.0.0/8. *)
Lemma last_insert_hidden_by_more_specific :
  ∃ t0 t1 t2,
    NetTree.insert NetTree.empty "10.1.0.0/16" ("10.1.0.0/16", 2%Z, "B")
      = OK t0 ∧
    NetTree.insert t0 "10.0.0.0/8" ("10.0.0.0/8", 1%Z, "A") = OK t1 ∧
    NetTree.insert t1 "10.0.0.0/8" ("10.0.0.0/8", 3%Z, "C") = OK t2 ∧
    NetTree.contains (IPv4Network 167772160 8) (IPv4Network 167838211 32) ∧
    ip_network "10.0.0.0/8" = Some (IPv4Network 167772160 8) ∧
    ip_network "10.1.2.3" = Some (IPv4Network 167838211 32) ∧
    NetTree.search truthy t2 "10.1.2.3" = OK (Some ("10.1.0.0/16", 2%Z, "B")).
Proof.
  set (p16 := NetTree.prefix (IPv4Network 167837696 16)).
  set (p8 := NetTree.prefix (IPv4Network 167772160 8)).
  set (t0 := NetTree.insert_loop NetTree.empty p16 ("10.1.0.0/16", 2%Z, "B")).
  set (t1 := NetTree.insert_loop t0 p8 ("10.0.0.0/8", 1%Z, "A")).
  exists t0, t1, (NetTree.insert_loop t1 p8 ("10.0.0.0/8", 3%Z, "C")).
  split; [run|]. split; [run|]. split; [run|].
  split; [by_evaluation|]. split; [run|]. split; run.
Qed.

Lemma last_insert_wins_witness :
  ip_network "10.0.0.0/8" = Some (IPv4Network 167772160 8) ∧
  ∃ t1 t2,
    NetTree.insert NetTree.empty "10.0.0.0/8" ("10.0.0.0/8", 1%Z, "A")
      = OK t1 ∧
    NetTree.insert t1 "10.0.0.0/8" ("10.0.0.0/8", 3%Z, "C") = OK t2 ∧
    NetTree.record_at t2 (NetTree.prefix (IPv4Network 167772160 8)) =
      Some ("10.0.0.0/8", 3%Z, "C") ∧
    NetTree.search truthy t2 "10.1.2.3" = OK (Some ("10.0.0.0/8", 3%Z, "C")).
Proof.
  assert (Hnet : ip_network "10.0.0.0/8" = Some (IPv4Network 167772160 8))
    by run.
  assert (Haddr : ip_network "10.1.2.3" = Some (IPv4Network 167838211 32))
    by run.
  split; [exact Hnet|].
  destruct (last_insert_wins truthy NetTree.empty "10.0.0.0/8"
              (IPv4Network 167772160 8)
              ("10.0.0.0/8", 1%Z, "A") ("10.0.0.0/8", 3%Z, "C") Hnet)
    as (t1 & t2 & H1 & H2 & Hr & Hs).
  exists t1, t2. split; [exact H1|]. split; [exact H2|].
  split; [exact Hr|].
  assert (Hc : NetTree.contains (IPv4Network 167772160 8)
                 (IPv4Network 167838211 32))
    by by_evaluation.
  assert (Hlen : List.length (NetTree.prefix (IPv4Network 167772160 8)) <
                 List.length (NetTree.prefix (IPv4Network 167838211 32)))
    by (vm_compute; lia).
  destruct (Hs "10.1.2.3" (IPv4Network 167838211 32) Haddr eq_refl Hc Hlen)
    as [_ Hd].
  apply Hd. intros p' d' _ _ _ Hr'.
  rewrite record_at_empty in Hr'. discriminate.
Defined.

Lemma insert_frame_witness :
  ip_network "10.0.0.0/8" = Some (IPv4Network 167772160 8) ∧
  ∃ t',
    NetTree.insert example_database.(db_network) "10.0.0.0/8"
      ("10.0.0.0/8", 1%Z, "A") = OK t' ∧
    NetTree.record_at t' (NetTree.prefix (IPv4Network 167772160 8)) =
      Some ("10.0.0.0/8", 1%Z, "A") ∧
    (∀ p, p ≠ NetTree.prefix (IPv4Network 167772160 8) →
          NetTree.record_at t' p =
          NetTree.record_at example_database.(db_network) p) ∧
    (∀ p, ¬ p `prefix_of` NetTree.prefix (IPv4Network 167772160 8) →
          NetTree.node_at t' p =
          NetTree.node_at example_database.(db_network) p) ∧
    (∀ p, is_Some (NetTree.node_at example_database.(db_network) p) →
          is_Some (NetTree.node_at t' p)).
Proof.
  assert (Hnet : ip_network "10.0.0.0/8" = Some (IPv4Network 167772160 8))
    by run.
  split; [exact Hnet|].
  exact (insert_frame example_database.(db_network) "10.0.0.0/8"
           (IPv4Network 167772160 8) ("10.0.0.0/8", 1%Z, "A") Hnet).
Defined.

(** C8, the claim as stated fails: a record with ASN 0 that stands before
    the header row is loaded, and its network is not among the networks
    of ASN 0 afterwards, since the header row registers ASN 0 anew. *)
Lemma header_after_record_resets_asn0 :
  ∃ db,
    load_database None [["192.0.2.0/24"; "0"; "Early"; "*"]; header_row] =
      (db, OK tt) ∧
    observed [["192.0.2.0/24"; "0"; "Early"; "*"]; header_row] 0 =
      "192.0.2.0/24" :: private ∧
    networks_for_asn db 0 = private ∧
    ¬ In "192.0.2.0/24" (networks_for_asn db 0).
Proof.
  exists (fst (load_database None
                 [["192.0.2.0/24"; "0"; "Early"; "*"]; header_row])).
  split; [run|]. split; [run|]. split; [run|].
  vm_compute. intros H.
  repeat (destruct H as [H|H]; [discriminate H|]). exact H.
Qed.

Lemma networks_for_asn_observed_witness :
  load_database None example_table = (example_database, OK tt) ∧
  Forall (fun row => is_header row = false) (tail example_table) ∧
  networks_for_asn example_database 0 = observed example_table 0 ∧
  ∀ db' asn', find_asn db' asn' = None → networks_for_asn db' asn' = [].
Proof.
  assert (Hdata : Forall (fun row => is_header row = false)
                    (tail example_table))
    by (repeat constructor).
  split; [exact example_table_loads|]. split; [exact Hdata|].
  exact (networks_for_asn_observed None example_table example_database 0
           example_table_loads (or_intror Hdata)).
Defined.

Lemma get_networks_never_raises_witness :
  Exists (fun s => bad_specifier s = true) ["ASN:100"; "ASN:x"; "8.8.8.8"] ∧
  get_networks example_database (List ["ASN:100"; "ASN:x"; "8.8.8.8"]) =
  OK ["ASN:100"; "ASN:x"; "8.8.8.8"].
Proof.
  assert (Hbad : Exists (fun s => bad_specifier s = true)
                   ["ASN:100"; "ASN:x"; "8.8.8.8"])
    by (right; left; run).
  split; [exact Hbad|].
  exact (proj2 (get_networks_never_raises example_database
                  ["ASN:100"; "ASN:x"; "8.8.8.8"]) Hbad).
Defined.

(** C6, the claim as stated fails: after a seeded load of a table in
    which a record carries ASN 0, the list for [["ASN:0", "8.8.8.8"]] holds
    the network of that record between the private ranges and 8.8.8.8. *)
Lemma asn0_record_follows_private_ranges :
  ∃ db,
    load_database None
      [header_row; ["192.0.2.0/24"; "0"; "Example"; "ZZ"]] = (db, OK tt) ∧
    find_asn db 0 =
      Some {| name := "Locally routed network"; country := "*";
              networks := private ++ ["192.0.2.0/24"] |} ∧
    get_networks db (List ["ASN:0"; "8.8.8.8"]) =
      OK (private ++ ["192.0.2.0/24"; "8.8.8.8"]) ∧
    get_networks db (List ["ASN:0"; "8.8.8.8"]) ≠
      OK (private ++ ["8.8.8.8"]).
Proof.
  exists (fst (load_database None
                 [header_row; ["192.0.2.0/24"; "0"; "Example"; "ZZ"]])).
  split; [run|]. split; [run|]. split; [run|].
  vm_compute. intros H. discriminate H.
Qed.

Lemma get_networks_expands_witness :
  Forall (fun s => bad_specifier s = false) ["ASN:100"; "8.8.8.8"; "ASN:7"] ∧
  get_networks example_database (List ["ASN:100"; "8.8.8.8"; "ASN:7"]) =
    OK (flat_map (expand_one example_database)
          ["ASN:100"; "8.8.8.8"; "ASN:7"]) ∧
  load_database None ([] ++ header_row :: tail example_table) =
    (example_database, OK tt) ∧
  is_header header_row = true ∧
  Forall (fun row => is_header row = false) (tail example_table) ∧
  get_networks example_database (List ["ASN:0"; "8.8.8.8"]) =
    OK (private ++ observed (tail example_table) 0 ++ ["8.8.8.8"]) ∧
  load_database None example_table = (example_database, OK tt) ∧
  Exists (fun row => is_header row = true) example_table ∧
  Forall (fun row => no_asn0 row = true) example_table ∧
  get_networks example_database (List ["ASN:0"; "8.8.8.8"]) =
    OK (private ++ ["8.8.8.8"]).
Proof.
  assert (Hok : Forall (fun s => bad_specifier s = false)
                  ["ASN:100"; "8.8.8.8"; "ASN:7"])
    by (repeat constructor; run).
  assert (Hh : Exists (fun row => is_header row = true) example_table)
    by (left; reflexivity).
  assert (Hno : Forall (fun row => no_asn0 row = true) example_table)
    by (repeat constructor; run).
  assert (Hdata : Forall (fun row => is_header row = false)
                    (tail example_table))
    by (repeat constructor).
  split; [exact Hok|].
  split; [exact (proj1 get_networks_expands example_database _ Hok)|].
  split; [exact example_table_loads|].
  split; [reflexivity|]. split; [exact Hdata|].
  split; [exact (proj1 (proj2 (proj2 get_networks_expands)) None []
                   header_row (tail example_table) example_database
                   example_table_loads eq_refl Hdata)|].
  split; [exact example_table_loads|].
  split; [exact Hh|]. split; [exact Hno|].
  exact (proj2 (proj2 (proj2 get_networks_expands)) None example_table
           example_database example_table_loads Hh Hno).
Defined.

End Runs.

(** * Further properties of the tree *)

Section TreeMore.

Context {D : Type} (truthy : D → bool).

Implicit Types (t here n : NetTree.node D) (p q : list bool) (d : D).

Import NetTree.

(** Induction over a tree: a property that holds of a node whenever it
    holds of its children holds of every node. *)
Lemma node_induction (P : node D → Prop) :
  (∀ c0 c1 (v : option D),
     (∀ c, c0 = Some c → P c) → (∀ c, c1 = Some c → P c) →
     P (Node c0 c1 v)) →
  ∀ n, P n.
Proof.
  intros Hnode. fix IH 1. intros [c0 c1 v]. apply Hnode.
  - intros c Hc. destruct c0 as [c0|]; [|discriminate].
    injection Hc as <-. apply IH.
  - intros c Hc. destruct c1 as [c1|]; [|discriminate].
    injection Hc as <-. apply IH.
Qed.

Lemma set_data_twice here d1 d2 :
  set_data (set_data here d1) d2 = set_data here d2.
Proof. destruct here; reflexivity. Qed.

Lemma set_child_twice here b c1 c2 :
  set_child (set_child here b c1) b c2 = set_child here b c2.
Proof. destruct here, b; reflexivity. Qed.

Lemma set_child_comm here b b' c c' :
  b ≠ b' →
  set_child (set_child here b c) b' c' = set_child (set_child here b' c') b c.
Proof. destruct here, b, b'; intros Hne; try reflexivity; congruence. Qed.

Lemma set_child_set_data here b c d :
  set_child (set_data here d) b c = set_data (set_child here b c) d.
Proof. destruct here, b; reflexivity. Qed.

(** A second insertion at the same path replaces the first: the tree is
    the one the second insertion alone gives. *)
Lemma insert_loop_overwrite t p d1 d2 :
  insert_loop (insert_loop t p d1) p d2 = insert_loop t p d2.
Proof.
  revert t. induction p as [|b p IH]; intros t; simpl.
  - apply set_data_twice.
  - rewrite child_set_child_eq, set_child_twice, IH. reflexivity.
Qed.

(** Insertions at different paths can be done in either order. *)
Lemma insert_loop_comm t p q d e :
  p ≠ q →
  insert_loop (insert_loop t p d) q e = insert_loop (insert_loop t q e) p d.
Proof.
  revert t q. induction p as [|b p IH]; intros t q Hne.
  - destruct q as [|b' q]; [congruence|]. simpl.
    rewrite child_set_data, set_child_set_data. reflexivity.
  - destruct q as [|b' q]; simpl.
    + rewrite child_set_data, set_child_set_data. reflexivity.
    + destruct (decide (b = b')) as [<-|Hb].
      * rewrite !child_set_child_eq, !set_child_twice.
        rewrite IH by congruence. reflexivity.
      * rewrite (child_set_child_ne _ b b') by exact Hb.
        rewrite (child_set_child_ne _ b' b) by congruence.
        apply set_child_comm. exact Hb.
Qed.

(** A node of the tree after an insertion was there before or lies on the
    inserted path. *)
Lemma node_at_insert_loop_inv t p d q :
  is_Some (node_at (insert_loop t p d) q) →
  is_Some (node_at t q) ∨ q `prefix_of` p.
Proof.
  intros Hn. destruct (decide (q `prefix_of` p)) as [Hq|Hq]; [right; exact Hq|].
  left. rewrite node_at_insert_loop_off in Hn by exact Hq. exact Hn.
Qed.

(** *** Longest-prefix match *)

Lemma above_cons_inv b p q :
  above p (b :: q) → p = [] ∨ ∃ p', p = b :: p' ∧ above p' q.
Proof.
  intros [Hpre Hlen]. destruct p as [|b' p]; [left; reflexivity|].
  right. exists p. apply prefix_cons_inv_1 in Hpre as Hb. subst b'.
  apply prefix_cons_inv_2 in Hpre. split; [reflexivity|].
  split; [exact Hpre | simpl in Hlen; lia].
Qed.

Lemma record_at_cons t b p :
  record_at t (b :: p) =
  match child t b with
  | Some c => record_at c p
  | None => None
  end.
Proof. unfold record_at. simpl. destruct (child t b); reflexivity. Qed.

Lemma remember_spec here net :
  (remember truthy here net = net ∧
   ∀ d, data here = Some d → truthy d = false) ∨
  ∃ d, data here = Some d ∧ truthy d = true ∧
       remember truthy here net = Some d.
Proof.
  unfold remember. destruct (data here) as [d|];
    [|left; split; [reflexivity | discriminate]].
  destruct (truthy d) eqn:Ht; [right; eauto|].
  left. split; [reflexivity|]. intros d' [= <-]. exact Ht.
Qed.

(** What the walk returns: the true value attached deepest among the
    nodes strictly above the end of the query path, or the initial [net]
    when none of them carries a true value. *)
Lemma search_loop_spec t q net :
  (search_loop truthy t q net = net ∧
   ∀ p d, above p q → record_at t p = Some d → truthy d = false) ∨
  ∃ p d, search_loop truthy t q net = Some d ∧ above p q ∧
         record_at t p = Some d ∧ truthy d = true ∧
         ∀ p' d', above p' q → List.length p < List.length p' →
                  record_at t p' = Some d' → truthy d' = false.
Proof.
  revert t net. induction q as [|b q IH]; intros t net.
  - left. split; [reflexivity|]. intros p d [_ Hlen]. simpl in Hlen. lia.
  - simpl.
    assert (Hbelow : ∀ r,
      (r = remember truthy t net ∧
       ∀ p d, above p q →
              match child t b with
              | Some c => record_at c p
              | None => None
              end = Some d → truthy d = false) →
      (r = net ∧
       ∀ p d, above p (b :: q) → record_at t p = Some d → truthy d = false) ∨
      ∃ p d, r = Some d ∧ above p (b :: q) ∧
             record_at t p = Some d ∧ truthy d = true ∧
             ∀ p' d', above p' (b :: q) → List.length p < List.length p' →
                      record_at t p' = Some d' → truthy d' = false).
    { intros r [-> Hdeep].
      destruct (remember_spec t net) as [[-> Hroot]|(d & Hd & Ht & ->)].
      - left. split; [reflexivity|]. intros p d Hp Hr.
        destruct (above_cons_inv _ _ _ Hp) as [->|(p' & -> & Hp')].
        + apply Hroot. exact Hr.
        + rewrite record_at_cons in Hr. exact (Hdeep p' d Hp' Hr).
      - right. exists [], d. split; [reflexivity|].
        split; [apply above_nil|]. split; [exact Hd|]. split; [exact Ht|].
        intros p' d' Hp Hlen Hr.
        destruct (above_cons_inv _ _ _ Hp) as [->|(p'' & -> & Hp')];
          [simpl in Hlen; lia|].
        rewrite record_at_cons in Hr. exact (Hdeep p'' d' Hp' Hr). }
    destruct (child t b) as [c|] eqn:Hc.
    + destruct (IH c (remember truthy t net))
        as [[Heq Hnone]|(p & d & Heq & Hp & Hr & Ht & Hdeep)].
      * apply Hbelow. split; [exact Heq | exact Hnone].
      * right. exists (b :: p), d. split; [exact Heq|].
        split; [apply above_cons, Hp|].
        split; [rewrite record_at_cons, Hc; exact Hr|].
        split; [exact Ht|].
        intros p' d' Hp' Hlen Hr'.
        destruct (above_cons_inv _ _ _ Hp') as [->|(p'' & -> & Hp'')];
          [simpl in Hlen; lia|].
        rewrite record_at_cons, Hc in Hr'.
        apply (Hdeep p'' d' Hp''); [simpl in Hlen; lia | exact Hr'].
    + apply Hbelow. split; [reflexivity|]. intros p d _ Hr. discriminate.
Qed.

(** Two initial parts of one path that have the same length are equal. *)
Lemma prefix_same_length p p' q :
  p `prefix_of` q → p' `prefix_of` q →
  List.length p = List.length p' → p = p'.
Proof.
  intros [k ->] [k' Hk'] Hlen.
  apply (f_equal (take (List.length p))) in Hk'.
  rewrite take_app_length in Hk'. rewrite Hlen in Hk'.
  rewrite take_app_length in Hk'. exact Hk'.
Qed.

(** The result of the walk depends only on the values attached strictly
    above the end of the query path. *)
Lemma search_loop_ext t1 t2 q :
  (∀ p, above p q → record_at t1 p = record_at t2 p) →
  search_loop truthy t1 q None = search_loop truthy t2 q None.
Proof.
  intros Hsame.
  destruct (search_loop_spec t1 q None)
    as [[-> Hnone1]|(p1 & d1 & -> & Hp1 & Hr1 & Ht1 & Hdeep1)];
  destruct (search_loop_spec t2 q None)
    as [[-> Hnone2]|(p2 & d2 & -> & Hp2 & Hr2 & Ht2 & Hdeep2)].
  - reflexivity.
  - rewrite <- (Hsame p2 Hp2) in Hr2.
    rewrite (Hnone1 p2 d2 Hp2 Hr2) in Ht2. discriminate.
  - rewrite (Hsame p1 Hp1) in Hr1.
    rewrite (Hnone2 p1 d1 Hp1 Hr1) in Ht1. discriminate.
  - destruct (lt_eq_lt_dec (List.length p1) (List.length p2))
      as [[Hlt|Heq]|Hgt].
    + rewrite <- (Hsame p2 Hp2) in Hr2.
      rewrite (Hdeep1 p2 d2 Hp2 Hlt Hr2) in Ht2. discriminate.
    + assert (p1 = p2) as ->
        by (eapply prefix_same_length; [apply Hp1 | apply Hp2 | exact Heq]).
      rewrite (Hsame p2 Hp2) in Hr1. congruence.
    + rewrite (Hsame p1 Hp1) in Hr1.
      rewrite (Hdeep2 p1 d1 Hp1 Hgt Hr1) in Ht1. discriminate.
Qed.

End TreeMore.

(** ** The textual representation of the tree *)

Section DumpFacts.

Context {D : Type} (truthy : D → bool) (show : D → string).

Implicit Types (t here n : NetTree.node D) (p q path : list bool) (d : D).

Import NetTree.

Lemma append_String c (s1 s2 : string) :
  String c s1 +:+ s2 = String c (s1 +:+ s2).
Proof. reflexivity. Qed.

Lemma append_nil_r (s : string) : s +:+ EmptyString = s.
Proof.
  induction s as [|c s IH]; [reflexivity|].
  rewrite append_String, IH. reflexivity.
Qed.

Lemma append_assoc (s1 s2 s3 : string) :
  (s1 +:+ s2) +:+ s3 = s1 +:+ (s2 +:+ s3).
Proof.
  induction s1 as [|c s1 IH]; [reflexivity|].
  rewrite !append_String, IH. reflexivity.
Qed.

Lemma path_text_snoc p (b : bool) :
  path_text (p ++ [b]) = path_text p +:+ (if b then "1" else "0").
Proof.
  induction p as [|b' p IH]; simpl.
  - destruct b; reflexivity.
  - rewrite IH, append_String. reflexivity.
Qed.

Lemma lines_app (l1 l2 : list (list bool * D)) :
  lines show (l1 ++ l2) = lines show l1 +:+ lines show l2.
Proof.
  induction l1 as [|e l1 IH]; simpl; [reflexivity|].
  rewrite IH, append_assoc. reflexivity.
Qed.

(** [dump] writes one line for each listed value, in the order of the
    list. *)
Lemma dump_lines n : ∀ p,
  dump truthy show n (path_text p) = lines show (entries truthy n p).
Proof.
  induction n as [c0 c1 v IH0 IH1] using node_induction. intros p. simpl.
  rewrite !lines_app. f_equal; [|f_equal].
  - destruct v as [x|]; [|reflexivity].
    destruct (truthy x); [|reflexivity].
    simpl. unfold line. simpl. rewrite append_nil_r. reflexivity.
  - destruct c0 as [c|]; [|reflexivity].
    rewrite <- (IH0 c eq_refl), path_text_snoc. reflexivity.
  - destruct c1 as [c|]; [|reflexivity].
    rewrite <- (IH1 c eq_refl), path_text_snoc. reflexivity.
Qed.

(** The listed values are the true values attached in the tree, each
    under its path. *)
Lemma elem_of_entries n : ∀ path q d,
  (q, d) ∈ entries truthy n path ↔
  ∃ p, q = path ++ p ∧ record_at n p = Some d ∧ truthy d = true.
Proof.
  induction n as [c0 c1 v IH0 IH1] using node_induction.
  intros path q d. simpl. rewrite !elem_of_app. split.
  - intros [Hhere|[H0|H1]].
    + destruct v as [x|]; [|inversion Hhere].
      destruct (truthy x) eqn:Ht; [|inversion Hhere].
      apply list_elem_of_singleton in Hhere. injection Hhere as -> ->.
      exists []. rewrite app_nil_r. auto.
    + destruct c0 as [c|]; [|inversion H0].
      apply (IH0 c eq_refl) in H0 as (p & -> & Hr & Ht).
      exists (false :: p). rewrite <- app_assoc. auto.
    + destruct c1 as [c|]; [|inversion H1].
      apply (IH1 c eq_refl) in H1 as (p & -> & Hr & Ht).
      exists (true :: p). rewrite <- app_assoc. auto.
  - intros ([|b p] & -> & Hr & Ht).
    + left. unfold record_at in Hr. simpl in Hr. subst v. rewrite Ht.
      rewrite app_nil_r. apply list_elem_of_singleton. reflexivity.
    + right. rewrite record_at_cons in Hr. destruct b; simpl in Hr.
      * right. destruct c1 as [c|]; [|discriminate].
        apply (IH1 c eq_refl). exists p. rewrite <- app_assoc. auto.
      * left. destruct c0 as [c|]; [|discriminate].
        apply (IH0 c eq_refl). exists p. rewrite <- app_assoc. auto.
Qed.

Lemma entries_path n path q :
  q ∈ (entries truthy n path).*1 → ∃ p, q = path ++ p.
Proof.
  intros Hq. apply list_elem_of_fmap in Hq as ([q' d] & -> & Hin).
  apply elem_of_entries in Hin as (p & -> & _). eauto.
Qed.

(** No path is listed twice. *)
Lemma entries_NoDup n : ∀ path, NoDup (entries truthy n path).*1.
Proof.
  induction n as [c0 c1 v IH0 IH1] using node_induction.
  intros path. simpl. rewrite !fmap_app. apply NoDup_app. split; [|split].
  - destruct v as [x|]; [|constructor].
    destruct (truthy x); [|constructor]. apply NoDup_singleton.
  - intros q Hhere Hbelow.
    assert (q = path) as ->.
    { destruct v as [x|]; [|inversion Hhere].
      destruct (truthy x); [|inversion Hhere].
      apply list_elem_of_singleton in Hhere. exact Hhere. }
    apply elem_of_app in Hbelow as [H|H].
    + destruct c0 as [c|]; [|inversion H].
      apply entries_path in H as [p Hp]. rewrite <- app_assoc in Hp.
      apply (f_equal List.length) in Hp. rewrite length_app in Hp.
      simpl in Hp. lia.
    + destruct c1 as [c|]; [|inversion H].
      apply entries_path in H as [p Hp]. rewrite <- app_assoc in Hp.
      apply (f_equal List.length) in Hp. rewrite length_app in Hp.
      simpl in Hp. lia.
  - apply NoDup_app. split; [|split].
    + destruct c0 as [c|]; [apply (IH0 c eq_refl) | constructor].
    + intros q H0 H1.
      destruct c0 as [c|]; [|inversion H0].
      destruct c1 as [c'|]; [|inversion H1].
      apply entries_path in H0 as [p0 ->].
      apply entries_path in H1 as [p1 Hp].
      rewrite <- !app_assoc in Hp. apply app_inv_head in Hp.
      discriminate.
    + destruct c1 as [c|]; [apply (IH1 c eq_refl) | constructor].
Qed.

(** The values listed for the tree that holds one value. *)
Lemma entries_insert_loop_empty p d path :
  entries truthy (insert_loop empty p d) path =
  if truthy d then [(path ++ p, d)] else [].
Proof.
  revert path. induction p as [|b p IH]; intros path; simpl.
  - rewrite !app_nil_r. destruct (truthy d); reflexivity.
  - destruct b; simpl; rewrite IH, <- app_assoc;
      destruct (truthy d); reflexivity.
Qed.

End DumpFacts.

(** ** The tree: further theorems *)

Section ParserMore.

Import IPAddress.

Lemma parse_prefixlen_le maxlen s p :
  parse_prefixlen maxlen s = Some p → (p ≤ maxlen)%nat.
Proof.
  unfold parse_prefixlen. destruct s as [|c s]; [discriminate|].
  destruct (all_digits (String c s) && _); [|discriminate].
  cbv zeta.
  destruct (Z.of_nat maxlen <? _)%Z eqn:Hle; [discriminate|].
  intros [= <-]. apply Z.ltb_ge in Hle.
  cbn [decimal] in Hle |- *. lia.
Qed.

Lemma make_network_prefixlen width mk a plen net :
  make_network width mk a plen = Some net →
  ∃ v p, net = mk v p ∧ (p ≤ width)%nat.
Proof.
  unfold make_network. destruct a as [v|]; [|discriminate]. simpl.
  destruct plen as [t|]; simpl.
  - destruct (parse_prefixlen width t) as [p|] eqn:Hp; [|discriminate].
    simpl. destruct (host_bits_clear _ _ _); [|discriminate].
    intros [= <-]. exists v, p. split; [reflexivity|].
    eapply parse_prefixlen_le, Hp.
  - destruct (host_bits_clear _ _ _); [|discriminate].
    intros [= <-]. exists v, width. split; [reflexivity | lia].
Qed.

Lemma count_righthand_zero_bits_range number :
  (0 ≤ count_righthand_zero_bits number 32 ≤ 32)%Z.
Proof.
  unfold count_righthand_zero_bits, bit_length.
  destruct (number =? 0)%Z; [lia|].
  destruct (_ =? 0)%Z; [lia|].
  pose proof (Z.log2_nonneg (Z.land (Z.lnot number) (number - 1))). lia.
Qed.

Lemma prefix_from_ip_int_le ip_int p :
  prefix_from_ip_int ip_int = Some p → (Z.to_nat p ≤ 32)%nat.
Proof.
  unfold prefix_from_ip_int.
  pose proof (count_righthand_zero_bits_range ip_int).
  destruct (_ =? _)%Z; [|discriminate]. intros [= <-]. lia.
Qed.

Lemma ipv4_prefixlen_le mask p : ipv4_prefixlen mask = Some p → (p ≤ 32)%nat.
Proof.
  unfold ipv4_prefixlen. destruct mask as [t|]; [|intros [= <-]; lia].
  destruct (parse_prefixlen 32 t) as [p'|] eqn:Hp.
  - intros [= <-]. eapply parse_prefixlen_le, Hp.
  - unfold prefix_from_ip_string.
    destruct (ipv4_int t) as [ip_int|]; [|discriminate]. simpl.
    destruct (prefix_from_ip_int ip_int) as [q|] eqn:Hq.
    + intros [= <-]. eapply prefix_from_ip_int_le, Hq.
    + destruct (prefix_from_ip_int (Z.lxor ip_int 4294967295)) as [q|] eqn:Hq';
        [|discriminate].
      simpl. intros [= <-]. eapply prefix_from_ip_int_le, Hq'.
Qed.

(** The prefix length of a parsed network is within its family's width. *)
Lemma ip_network_prefixlen text net :
  ip_network text = Some net →
  match net with
  | IPv4Network _ p => (p ≤ 32)%nat
  | IPv6Network _ p => (p ≤ 128)%nat
  end.
Proof.
  unfold ip_network.
  destruct (2 <? _)%nat; [discriminate|].
  set (addr := nth 0 (Py.split "/" text) EmptyString).
  set (plen := Py.split "/" text !! 1%nat).
  assert (H6 : make_network 128 IPv6Network (split_scope_id addr ≫= ipv6_int)
                 plen = Some net →
               match net with
               | IPv4Network _ p => (p ≤ 32)%nat
               | IPv6Network _ p => (p ≤ 128)%nat
               end).
  { intros H. apply make_network_prefixlen in H as (v & p & -> & Hp).
    exact Hp. }
  destruct (ipv4_int addr) as [v|]; [|exact H6].
  destruct (ipv4_prefixlen plen) as [p|] eqn:Hp; [|exact H6].
  destruct (host_bits_clear 32 v p); [|discriminate].
  intros [= <-]. eapply ipv4_prefixlen_le, Hp.
Qed.

End ParserMore.

Section TreeExtras.

Context {D : Type} (truthy : D → bool).

Implicit Types (t : NetTree.node D) (p q : list bool) (d : D).

Import NetTree.

Lemma length_prefix_le net : (List.length (prefix net) ≤ 128)%nat.
Proof.
  unfold prefix. destruct (embed net) as [a plen].
  rewrite length_take, length_bits. lia.
Qed.

Lemma above_contains net a :
  above (prefix net) (prefix a) → contains net a.
Proof.
  intros [Hpre _]. unfold contains. etransitivity; [exact Hpre|].
  unfold prefix at 1. destruct (embed a) as [v plen]. apply prefix_take.
Qed.

(** X1. Longest-prefix match. For a query that parses, [search] returns the
    true value attached deepest among the nodes strictly above the end of
    the query path; it returns [None] exactly when none of those nodes
    carries a true value. *)
Theorem search_longest_match t query a :
  ip_network query = Some a →
  ∃ r, search truthy t query = OK r ∧
       match r with
       | Some d =>
           ∃ p, above p (prefix a) ∧ record_at t p = Some d ∧
                truthy d = true ∧
                ∀ p' d', above p' (prefix a) →
                         List.length p < List.length p' →
                         record_at t p' = Some d' → truthy d' = false
       | None =>
           ∀ p d, above p (prefix a) → record_at t p = Some d →
                  truthy d = false
       end.
Proof.
  intros Ha. unfold search. rewrite Ha.
  destruct (search_loop_spec truthy t (prefix a) None)
    as [[-> Hnone]|(p & d & -> & Hp & Hr & Ht & Hdeep)].
  - exists None. split; [reflexivity | exact Hnone].
  - exists (Some d). split; [reflexivity|]. exists p. auto.
Qed.

(** X2. [search] never makes up an answer: on a tree built by insertions from
    the empty tree, a value it returns was inserted with a network that
    contains the queried address and has a shorter prefix than the query. *)
Theorem search_answers_were_inserted
    (entries : list (string * D)) t query a d :
  insert_all empty entries = OK t →
  ip_network query = Some a →
  search truthy t query = OK (Some d) →
  ∃ network net,
    (network, d) ∈ entries ∧ ip_network network = Some net ∧
    contains net a ∧ List.length (prefix net) < List.length (prefix a).
Proof.
  intros Hins Ha. unfold search. rewrite Ha. intros [= Hs].
  destruct (search_loop_result truthy t (prefix a) None)
    as [Hnone|(p & d' & Hp & Hr & _ & Hs')]; [congruence|].
  rewrite Hs in Hs'. injection Hs' as <-.
  destruct (record_at_insert_all _ _ _ _ _ Hins Hr)
    as [He|(network & net & Hin & Hnet & <-)];
    [rewrite record_at_empty in He; discriminate|].
  exists network, net. split; [exact Hin|]. split; [exact Hnet|].
  split; [apply above_contains, Hp | apply Hp].
Qed.

(** X3. Insertions of networks with different bit paths commute: either order
    gives the same tree. *)
Theorem insert_commutes t network1 net1 d1 network2 net2 d2 :
  ip_network network1 = Some net1 →
  ip_network network2 = Some net2 →
  prefix net1 ≠ prefix net2 →
  ∃ t1 t2 t',
    insert t network1 d1 = OK t1 ∧ insert t1 network2 d2 = OK t' ∧
    insert t network2 d2 = OK t2 ∧ insert t2 network1 d1 = OK t'.
Proof.
  intros H1 H2 Hne.
  exists (insert_loop t (prefix net1) d1), (insert_loop t (prefix net2) d2),
         (insert_loop (insert_loop t (prefix net1) d1) (prefix net2) d2).
  unfold insert. rewrite H1, H2.
  split; [reflexivity|]. split; [reflexivity|]. split; [reflexivity|].
  f_equal. symmetry. apply insert_loop_comm. exact Hne.
Qed.

(** X4. An insertion erases every trace of an earlier insertion at the same
    node: for two network texts with the same bit path (the same text, or
    an IPv4 network and its IPv4-mapped IPv6 form), inserting the first
    and then the second gives the tree that inserting the second alone
    gives. *)
Theorem insert_overwrites t network1 net1 d1 network2 net2 d2 :
  ip_network network1 = Some net1 →
  ip_network network2 = Some net2 →
  prefix net1 = prefix net2 →
  ∃ t1 t2,
    insert t network1 d1 = OK t1 ∧ insert t1 network2 d2 = OK t2 ∧
    insert t network2 d2 = OK t2.
Proof.
  intros H1 H2 Heq.
  exists (insert_loop t (prefix net1) d1), (insert_loop t (prefix net2) d2).
  unfold insert. rewrite H1, H2, Heq.
  split; [reflexivity|]. split; [|reflexivity].
  f_equal. apply insert_loop_overwrite.
Qed.

(** X5. Frame for [search]: inserting a network whose node is not strictly
    above the end of the query path (it lies on another branch, or is as
    deep as the query or deeper) does not change what the query returns. *)
Theorem search_frame t network net d query a :
  ip_network network = Some net →
  ip_network query = Some a →
  ¬ above (prefix net) (prefix a) →
  ∃ t', insert t network d = OK t' ∧
        search truthy t' query = search truthy t query.
Proof.
  intros Hnet Ha Hoff. exists (insert_loop t (prefix net) d).
  unfold insert, search. rewrite Hnet, Ha. split; [reflexivity|]. f_equal.
  apply search_loop_ext. intros p Hp.
  apply record_at_insert_loop_ne. intros ->. exact (Hoff Hp).
Qed.

(** X6. The tree is never deeper than 128: every node of a tree built by
    insertions from the empty tree has a path of at most 128 bits. *)
Theorem tree_depth_bounded (entries : list (string * D)) t p :
  insert_all empty entries = OK t →
  is_Some (node_at t p) →
  (List.length p ≤ 128)%nat.
Proof.
  intros Hins.
  assert (Hgen : ∀ t0, insert_all t0 entries = OK t →
            (∀ q, is_Some (node_at t0 q) → (List.length q ≤ 128)%nat) →
            ∀ q, is_Some (node_at t q) → (List.length q ≤ 128)%nat).
  { clear Hins p. induction entries as [|[network d] entries IH];
      intros t0 Hall Hbound; simpl in Hall.
    - injection Hall as <-. exact Hbound.
    - unfold insert in Hall.
      destruct (ip_network network) as [net|]; [|discriminate].
      apply (IH _ Hall). intros q Hq.
      destruct (node_at_insert_loop_inv _ _ _ _ Hq) as [Hold|Hpre].
      + apply Hbound, Hold.
      + apply prefix_length in Hpre.
        pose proof (length_prefix_le net). lia. }
  apply (Hgen empty Hins). intros q [n Hn].
  destruct q as [|b q]; [simpl; lia|].
  rewrite node_at_empty in Hn by discriminate. discriminate.
Qed.

(** X7. A network is attached at the depth of its prefix length, counted in
    the 128-bit space: [prefixlen] for an IPv6 network, [prefixlen + 96],
    hence at least 96, for an IPv4 network. *)
Theorem stored_at_prefix_length t network net d :
  ip_network network = Some net →
  ∃ t', insert t network d = OK t' ∧
        record_at t' (prefix net) = Some d ∧
        List.length (prefix net) =
          match net with
          | IPv4Network _ plen => plen + 96
          | IPv6Network _ plen => plen
          end.
Proof.
  intros Hnet. exists (insert_loop t (prefix net) d).
  unfold insert. rewrite Hnet. split; [reflexivity|].
  split; [apply record_at_insert_loop_eq|].
  pose proof (ip_network_prefixlen _ _ Hnet) as Hp.
  unfold prefix. destruct net as [a plen|a plen]; simpl;
    rewrite length_take, length_bits; lia.
Qed.

End TreeExtras.

Section DumpExtras.

Context {D : Type} (truthy : D → bool) (show : D → string).

Implicit Types (t : NetTree.node D) (p : list bool) (d : D).

Import NetTree.

(** X8. [dump] writes exactly the true values of the tree: its text is one
    line, path then value, for each entry of a list that holds a pair
    [(p, d)] if and only if [d] is attached at path [p] and is true, and
    that holds no path twice. *)
Theorem dump_lists_true_values t :
  dump truthy show t EmptyString = lines show (entries truthy t []) ∧
  (∀ p d, (p, d) ∈ entries truthy t [] ↔
          record_at t p = Some d ∧ truthy d = true) ∧
  NoDup (entries truthy t []).*1.
Proof.
  split; [apply (dump_lines truthy show t [])|].
  split; [|apply entries_NoDup].
  intros p d. rewrite elem_of_entries. simpl. split.
  - intros (p' & -> & H). exact H.
  - intros H. exists p. auto.
Qed.

(** X9. Insert, then dump: the dump of the tree that holds one network is the
    line of that network's path and value, or nothing when the value is
    not true. *)
Theorem dump_after_insert network net d :
  ip_network network = Some net →
  ∃ t, insert empty network d = OK t ∧
       dump truthy show t EmptyString =
       if truthy d
       then path_text (prefix net) +:+ ": " +:+ show d +:+ newline
       else EmptyString.
Proof.
  intros Hnet. exists (insert_loop empty (prefix net) d).
  unfold insert. rewrite Hnet. split; [reflexivity|].
  rewrite (dump_lines truthy show _ []), entries_insert_loop_empty.
  destruct (truthy d); [|reflexivity].
  simpl. unfold line. simpl. apply append_nil_r.
Qed.

End DumpExtras.

(** * Further properties of the database *)

Section LoadMore.

Import IPGuide.

Implicit Types (db : database) (row : list string)
  (rows : list (list string)).

(** A data row that returns has four fields, an integer ASN and a network
    that parses. *)
Lemma load_row_ok_fields row db db' :
  load_row row db = (db', OK tt) → is_header row = false →
  ∃ network a org c rest asn net,
    row = network :: a :: org :: c :: rest ∧
    Py.int a = Some asn ∧ ip_network network = Some net ∧
    db' = data_step db network asn org c net.
Proof.
  destruct row as [|network rest]; [discriminate|]. simpl is_header.
  intros Hload Hn.
  rewrite (load_row_data (network :: rest) db network eq_refl Hn) in Hload.
  destruct rest as [|a [|org [|c rest]]]; try discriminate Hload;
    cbn [lookup list_lookup] in Hload.
  - destruct (Py.int a); discriminate.
  - destruct (Py.int a); discriminate.
  - destruct (Py.int a) as [asn|] eqn:Ha; [|discriminate].
    destruct (ip_network network) as [net|] eqn:Hnet; [|discriminate].
    injection Hload as <-. exists network, a, org, c, rest, asn, net. auto.
Qed.

Lemma load_row_data_ok db network a org c rest asn net :
  String.eqb network "network" = false →
  Py.int a = Some asn → ip_network network = Some net →
  load_row (network :: a :: org :: c :: rest) db =
  (data_step db network asn org c net, OK tt).
Proof.
  intros Hn Ha Hnet.
  rewrite (load_row_data (network :: a :: org :: c :: rest) db network
             eq_refl Hn).
  cbn [lookup list_lookup]. rewrite Ha, Hnet. reflexivity.
Qed.

(** The rows that return are the well-formed ones. *)
Lemma load_row_ok_iff row db :
  (∃ db', load_row row db = (db', OK tt)) ↔ well_formed row = true.
Proof.
  unfold well_formed. destruct (is_header row) eqn:Hh; simpl.
  - split; [reflexivity|]. intros _.
    destruct (load_row_header row db Hh) as [t Ht]. eauto.
  - split.
    + intros [db' Hload].
      destruct (load_row_ok_fields _ _ _ Hload Hh)
        as (network & a & org & c & rest & asn & net & -> & Ha & Hnet & _).
      rewrite Ha, Hnet.
      rewrite !bool_decide_eq_true_2 by eauto. reflexivity.
    + destruct row as [|network [|a [|org [|c rest]]]]; try discriminate.
      intros H. apply andb_true_iff in H as [Ha Hnet].
      apply bool_decide_eq_true in Ha as [asn Ha].
      apply bool_decide_eq_true in Hnet as [net Hnet].
      simpl in Hh. rewrite (load_row_data_ok db _ _ _ _ _ _ _ Hh Ha Hnet).
      eauto.
Qed.

Lemma for_each_ok_iff rows : ∀ db,
  (∃ db', for_each rows load_row db = (db', OK tt)) ↔
  Forall (fun row => well_formed row = true) rows.
Proof.
  induction rows as [|row rows IH]; intros db; simpl.
  - split; [constructor | eauto].
  - unfold bind. split.
    + intros [db' Hload].
      destruct (load_row row db) as [db1 [[]|e]] eqn:Hrow; [|discriminate].
      constructor.
      * apply (load_row_ok_iff row db). eauto.
      * apply (IH db1). eauto.
    + intros Hall. inversion Hall as [|? ? Hrow Hrest]; subst.
      apply (load_row_ok_iff row db) in Hrow as [db1 ->].
      apply (IH db1), Hrest.
Qed.

(** *** Countries *)

Lemma find_country_header t db c :
  find_country
    {| db_network := t;
       db_asn := <[0%Z := local_entry]> (db_asn db);
       db_country := <["*" := [0%Z]]> (db_country db) |} c =
  if bool_decide (c = "*") then [0%Z] else find_country db c.
Proof.
  unfold find_country. simpl. case_bool_decide as Hc.
  - subst c. rewrite lookup_insert_eq. reflexivity.
  - rewrite lookup_insert_ne by congruence. reflexivity.
Qed.

Lemma find_country_data_step db network asn org c' net c :
  find_country (data_step db network asn org c' net) c =
  find_country db c ++ (if bool_decide (c' = c) then [asn] else []).
Proof.
  unfold find_country, data_step, register_country. simpl.
  case_bool_decide as Hc.
  - subst c'. rewrite lookup_insert_eq. reflexivity.
  - rewrite lookup_insert_ne by exact Hc. rewrite app_nil_r. reflexivity.
Qed.

Lemma find_country_new c : find_country new_database c = [].
Proof. unfold find_country. simpl. rewrite lookup_empty. reflexivity. Qed.

Lemma row_countries_header row c :
  is_header row = true →
  row_countries c row = if bool_decide (c = "*") then [0%Z] else [].
Proof.
  destruct row as [|n r]; [discriminate|]. simpl. intros ->. reflexivity.
Qed.

Lemma for_each_countries rows db db' c :
  c ≠ "*" ∨ Forall (fun row => is_header row = false) rows →
  for_each rows load_row db = (db', OK tt) →
  find_country db' c = find_country db c ++ observed_countries rows c.
Proof.
  intros Hor. revert db. induction rows as [|row rows IH]; intros db; simpl.
  - intros [= <-]. rewrite app_nil_r. reflexivity.
  - unfold bind. destruct (load_row row db) as [db1 [[]|e1]] eqn:Hload;
      [|discriminate].
    intros Hrest.
    assert (Hor' : c ≠ "*" ∨ Forall (fun row => is_header row = false) rows).
    { destruct Hor as [Hc|Hall]; [left; exact Hc|].
      right. inversion Hall; assumption. }
    rewrite (IH Hor' _ Hrest). unfold observed_countries at 2. simpl.
    rewrite app_assoc. f_equal.
    destruct (is_header row) eqn:Hh.
    + destruct Hor as [Hc|Hall]; [|inversion Hall; congruence].
      destruct (load_row_header row db Hh) as [t Ht].
      rewrite Ht in Hload. injection Hload as <-.
      rewrite find_country_header, (row_countries_header _ _ Hh).
      rewrite bool_decide_eq_false_2 by exact Hc.
      rewrite app_nil_r. reflexivity.
    + destruct (load_row_ok_fields _ _ _ Hload Hh)
        as (network & a & org & c' & rest & asn & net & -> & Ha & _ & ->).
      rewrite find_country_data_step. simpl in *. rewrite Hh, Ha.
      reflexivity.
Qed.

(** *** Entries are never empty *)

Lemma for_each_networks_nonempty rows : ∀ db db',
  for_each rows load_row db = (db', OK tt) →
  (∀ asn e, db_asn db !! asn = Some e → networks e ≠ []) →
  ∀ asn e, db_asn db' !! asn = Some e → networks e ≠ [].
Proof.
  induction rows as [|row rows IH]; intros db db'; simpl.
  - intros [= <-] H. exact H.
  - unfold bind. destruct (load_row row db) as [db1 [[]|e1]] eqn:Hload;
      [|discriminate].
    intros Hrest Hinv. apply (IH _ _ Hrest). intros asn e.
    destruct (load_row_ok_cases _ _ _ Hload)
      as [[Hh (t & ->)]|[Hh (n & a & rest & asn' & org & c & net & -> & Ha & ->)]];
      simpl.
    + destruct (decide (asn = 0%Z)) as [->|Hne].
      * rewrite lookup_insert_eq. intros [= <-]. discriminate.
      * rewrite lookup_insert_ne by congruence. apply Hinv.
    + unfold register_asn. destruct (decide (asn = asn')) as [->|Hne].
      * destruct (db_asn db !! asn') as [e0|]; rewrite lookup_insert_eq;
          intros [= <-]; simpl; [|discriminate].
        intros Happ. apply app_eq_nil in Happ as [_ ?]. discriminate.
      * destruct (db_asn db !! asn'); rewrite lookup_insert_ne by congruence;
          apply Hinv.
Qed.

End LoadMore.

Section IndexFacts.

Import IPGuide.

Implicit Types (db : database) (row : list string)
  (rows : list (list string)).

(** *** The entry of an ASN *)

(** The entry of an ASN other than 0 after the rows: an entry that was
    there keeps its name and country and gains the networks of the rows;
    otherwise the first row with the ASN gives name and country. *)
Lemma for_each_find_asn rows : ∀ db db' asn,
  asn ≠ 0%Z →
  for_each rows load_row db = (db', OK tt) →
  find_asn db' asn =
  match find_asn db asn with
  | Some e => Some {| name := name e; country := country e;
                      networks := networks e ++ observed rows asn |}
  | None =>
      match first_row_for asn rows with
      | Some (_ :: _ :: org :: c :: _) =>
          Some {| name := org; country := c;
                  networks := observed rows asn |}
      | _ => None
      end
  end.
Proof.
  induction rows as [|row rows IH]; intros db db' asn Hasn.
  - simpl. intros [= <-]. destruct (find_asn db asn) as [[nm co nets]|];
      [|reflexivity].
    simpl. rewrite app_nil_r. reflexivity.
  - simpl for_each. unfold bind.
    destruct (load_row row db) as [db1 [[]|e1]] eqn:Hload; [|discriminate].
    intros Hrest. rewrite (IH _ _ asn Hasn Hrest).
    assert (Hobs : observed (row :: rows) asn =
                   row_networks asn row ++ observed rows asn)
      by reflexivity.
    assert (Hfirst : first_row_for asn (row :: rows) =
                     if negb (is_header row) &&
                        bool_decide (row_asn row = Some asn)
                     then Some row else first_row_for asn rows)
      by reflexivity.
    rewrite Hobs, Hfirst. clear Hobs Hfirst.
    destruct (is_header row) eqn:Hh.
    + destruct (load_row_header row db Hh) as [t Ht].
      rewrite Ht in Hload. injection Hload as <-.
      assert (Hsame : find_asn
                {| db_network := t;
                   db_asn := <[0%Z := local_entry]> (db_asn db);
                   db_country := <["*" := [0%Z]]> (db_country db) |} asn =
                find_asn db asn).
      { unfold find_asn. simpl. apply lookup_insert_ne. congruence. }
      rewrite Hsame.
      assert (Hnone : row_networks asn row = []).
      { destruct row as [|n r]; [discriminate|]. simpl in Hh. simpl.
        rewrite Hh. rewrite bool_decide_eq_false_2 by exact Hasn.
        reflexivity. }
      rewrite Hnone. reflexivity.
    + destruct (load_row_ok_fields _ _ _ Hload Hh)
        as (network & a & org & c & rest & asn' & net & -> & Ha & _ & ->).
      assert (Hnets : row_networks asn (network :: a :: org :: c :: rest) =
                      if bool_decide (Some asn' = Some asn)
                      then [network] else []).
      { simpl in Hh. simpl. rewrite Hh, Ha. reflexivity. }
      assert (Hrow : row_asn (network :: a :: org :: c :: rest) = Some asn')
        by exact Ha.
      rewrite Hnets, Hrow. clear Hnets Hrow. simpl negb.
      destruct (decide (asn' = asn)) as [->|Hne].
      * rewrite bool_decide_eq_true_2 by reflexivity. simpl andb.
        cbv iota.
        unfold find_asn, data_step, register_asn. simpl db_asn.
        destruct (db_asn db !! asn) as [e0|] eqn:He0;
          rewrite lookup_insert_eq; simpl.
        -- rewrite <- app_assoc. reflexivity.
        -- reflexivity.
      * rewrite bool_decide_eq_false_2 by congruence. simpl andb.
        cbv iota.
        assert (Hsame : find_asn (data_step db network asn' org c net) asn =
                        find_asn db asn).
        { unfold find_asn, data_step, register_asn. simpl.
          destruct (db_asn db !! asn');
            rewrite lookup_insert_ne by exact Hne; reflexivity. }
        rewrite Hsame. reflexivity.
Qed.

(** *** The tree against the two dictionaries *)

(** The insertions of the header row are those of [seeds]. *)
Lemma for_each_tree_insert_all (l : list string) (f : string → record) db :
  Forall (fun s => is_Some (ip_network s)) l →
  ∃ t, NetTree.insert_all (db_network db) (map (fun s => (s, f s)) l) = OK t ∧
       for_each l (fun s => tree_insert s (f s)) db =
       ({| db_network := t; db_asn := db_asn db;
           db_country := db_country db |}, OK tt).
Proof.
  intros Hl. revert db. induction Hl as [|s l [net Hs] _ IH]; intros db.
  - exists (db_network db). split; [reflexivity|]. destruct db; reflexivity.
  - simpl. unfold bind, tree_insert at 1, NetTree.insert. rewrite Hs.
    destruct (IH {| db_network :=
                      NetTree.insert_loop (db_network db)
                        (NetTree.prefix net) (f s);
                    db_asn := db_asn db; db_country := db_country db |})
      as (t & Hall & Ht).
    exists t. split; [exact Hall | exact Ht].
Qed.

Lemma load_row_header_seeds row db :
  is_header row = true →
  ∃ t, NetTree.insert_all (db_network db) seeds = OK t ∧
       load_row row db =
       ({| db_network := t;
           db_asn := <[0%Z := local_entry]> (db_asn db);
           db_country := <["*" := [0%Z]]> (db_country db) |}, OK tt).
Proof.
  destruct row as [|network rest]; [discriminate|].
  cbn [is_header]. intros Hh.
  destruct (for_each_tree_insert_all private (fun s => (s, 0%Z, "*")) db
              private_parse) as (t & Hall & Ht).
  exists t. split; [exact Hall|].
  unfold load_row, bind at 1, lift, Py.item.
  change ((network :: rest) !! 0) with (Some network). cbv iota beta.
  rewrite Hh. unfold bind at 1. unfold bind at 1. rewrite Ht. reflexivity.
Qed.

Lemma elem_of_seeds network r :
  (network, r) ∈ seeds → r = (network, 0%Z, "*") ∧ network ∈ private.
Proof.
  unfold seeds. intros H. apply list_elem_of_fmap in H as (s & [= -> ->] & Hs).
  auto.
Qed.

Lemma consistent_data_step db network asn org c net :
  consistent db → consistent (data_step db network asn org c net).
Proof.
  intros Hdb p n a c'. rewrite networks_for_asn_data_step,
    find_country_data_step. cbn [data_step db_network].
  destruct (decide (p = NetTree.prefix net)) as [->|Hne].
  - rewrite record_at_insert_loop_eq. intros [= <- <- <-].
    rewrite !bool_decide_eq_true_2 by reflexivity.
    split; apply elem_of_app; right; apply list_elem_of_singleton;
      reflexivity.
  - rewrite record_at_insert_loop_ne by exact Hne. intros Hr.
    destruct (Hdb p n a c' Hr) as [Hn Ha].
    split; apply elem_of_app; left; assumption.
Qed.

Lemma for_each_data_consistent rows : ∀ db db',
  Forall (fun row => is_header row = false) rows →
  for_each rows load_row db = (db', OK tt) →
  consistent db → consistent db'.
Proof.
  induction rows as [|row rows IH]; intros db db' Hall; simpl.
  - intros [= <-] H. exact H.
  - unfold bind. destruct (load_row row db) as [db1 [[]|e1]] eqn:Hload;
      [|discriminate].
    inversion Hall as [|? ? Hh Hrest]; subst.
    intros Hfor Hdb. apply (IH _ _ Hrest Hfor).
    destruct (load_row_ok_fields _ _ _ Hload Hh)
      as (network & a & org & c & rest & asn & net & -> & _ & _ & ->).
    apply consistent_data_step, Hdb.
Qed.

Lemma consistent_new : consistent new_database.
Proof.
  intros p n a c. simpl. rewrite record_at_empty. discriminate.
Qed.

Lemma consistent_header_first t :
  NetTree.insert_all (db_network new_database) seeds = OK t →
  consistent {| db_network := t;
                db_asn := <[0%Z := local_entry]> (db_asn new_database);
                db_country := <["*" := [0%Z]]> (db_country new_database) |}.
Proof.
  intros Hall p n a c Hr. simpl in Hr.
  destruct (record_at_insert_all _ _ _ _ _ Hall Hr)
    as [He|(network & net & Hin & _ & _)];
    [simpl in He; rewrite record_at_empty in He; discriminate|].
  apply elem_of_seeds in Hin as [[= -> -> ->] Hp].
  rewrite networks_for_asn_header, find_country_header.
  rewrite !bool_decide_eq_true_2 by reflexivity.
  split; [exact Hp | apply list_elem_of_singleton; reflexivity].
Qed.

Lemma for_each_consistent rows db :
  Forall (fun row => is_header row = false) (tail rows) →
  for_each rows load_row new_database = (db, OK tt) →
  consistent db.
Proof.
  destruct rows as [|row rows]; simpl tail; intros Hdata.
  - simpl. intros [= <-]. apply consistent_new.
  - destruct (is_header row) eqn:Hh.
    + simpl. unfold bind.
      destruct (load_row_header_seeds row new_database Hh) as (t & Hall & ->).
      intros Hrest.
      apply (for_each_data_consistent _ _ _ Hdata Hrest).
      apply consistent_header_first, Hall.
    + intros Hall.
      apply (for_each_data_consistent (row :: rows) _ _
               (Forall_cons_2 _ _ _ Hh Hdata) Hall).
      apply consistent_new.
Qed.

(** *** Where the records of the tree come from *)

Lemma row_records_header row :
  is_header row = true → row_records row = map snd seeds.
Proof.
  destruct row as [|n rest]; [discriminate|].
  unfold is_header, row_records. intros ->. reflexivity.
Qed.

Lemma row_records_data network a org c rest asn :
  String.eqb network "network" = false → Py.int a = Some asn →
  row_records (network :: a :: org :: c :: rest) = [(network, asn, c)].
Proof. unfold row_records. intros -> ->. reflexivity. Qed.

Lemma table_records_cons row rows :
  table_records (row :: rows) = row_records row ++ table_records rows.
Proof. reflexivity. Qed.

Lemma for_each_records rows : ∀ db db' p r,
  for_each rows load_row db = (db', OK tt) →
  NetTree.record_at (db_network db') p = Some r →
  NetTree.record_at (db_network db) p = Some r ∨
  (r ∈ table_records rows ∧
   ∃ net, ip_network r.1.1 = Some net ∧ NetTree.prefix net = p).
Proof.
  induction rows as [|row rows IH]; intros db db' p r.
  - simpl. intros [= <-] Hr. left. exact Hr.
  - simpl for_each. unfold bind.
    destruct (load_row row db) as [db1 [[]|e1]] eqn:Hload; [|discriminate].
    intros Hrest Hr. rewrite table_records_cons.
    destruct (IH _ _ _ _ Hrest Hr) as [H1|[Hin Hnet]];
      [|right; split; [apply elem_of_app; right; exact Hin | exact Hnet]].
    destruct (is_header row) eqn:Hh.
    + destruct (load_row_header_seeds row db Hh) as (t & Hall & Ht).
      rewrite Ht in Hload. injection Hload as <-.
      cbn [db_network] in H1.
      destruct (record_at_insert_all _ _ _ _ _ Hall H1)
        as [Hold|(network & net & Hin & Hnet & Hp)]; [left; exact Hold|].
      right. split.
      * apply elem_of_app. left. rewrite (row_records_header _ Hh).
        apply list_elem_of_fmap. exists (network, r). auto.
      * apply elem_of_seeds in Hin as [-> _]. exists net. auto.
    + destruct (load_row_ok_fields _ _ _ Hload Hh)
        as (network & a & org & c & rest & asn & net & -> & Ha & Hnet & ->).
      cbn [data_step db_network] in H1.
      destruct (decide (p = NetTree.prefix net)) as [->|Hne].
      * rewrite record_at_insert_loop_eq in H1. injection H1 as <-.
        right. split.
        -- apply elem_of_app. left.
           rewrite (row_records_data _ _ _ _ _ _ Hh Ha).
           apply list_elem_of_singleton. reflexivity.
        -- exists net. auto.
      * rewrite record_at_insert_loop_ne in H1 by exact Hne.
        left. exact H1.
Qed.

End IndexFacts.

(** ** The database: further theorems *)

Section DatabaseExtras.

Import IPGuide.

Implicit Types (db : database) (rows : list (list string))
  (old : option database).

(** X10. The load gets through the table exactly when every row is well
    formed: the header row, or a row with at least four fields, an integer
    in the second and a network in the first. Any other row aborts it,
    a row with too few fields included. *)
Theorem load_completes_iff old rows :
  (∃ db, load_database old rows = (db, OK tt)) ↔
  Forall (fun row => well_formed row = true) rows.
Proof. unfold load_database. apply for_each_ok_iff. Qed.

(** X11. After a load, [find_country(c)] is the list of the ASNs of the rows
    with that country, in the order of the rows and with repetitions (one
    entry per row, not per ASN). For the country [*], under which the
    header row registers ASN 0, the header row is taken to be in first
    place, if present. *)
Theorem find_country_observed old rows db c :
  load_database old rows = (db, OK tt) →
  c ≠ "*" ∨ Forall (fun row => is_header row = false) (tail rows) →
  find_country db c = observed_countries rows c.
Proof.
  unfold load_database. intros Hload [Hc|Hdata].
  - rewrite (for_each_countries rows _ _ c (or_introl Hc) Hload).
    rewrite find_country_new. reflexivity.
  - destruct rows as [|row rows].
    + simpl in Hload. injection Hload as <-. apply find_country_new.
    + simpl tail in Hdata. destruct (is_header row) eqn:Hh.
      * simpl in Hload. unfold bind in Hload.
        destruct (load_row_header row new_database Hh) as [t Ht].
        rewrite Ht in Hload.
        rewrite (for_each_countries rows _ _ c (or_intror Hdata) Hload).
        rewrite find_country_header, find_country_new.
        unfold observed_countries. simpl.
        rewrite (row_countries_header _ _ Hh).
        destruct (bool_decide (c = "*")); reflexivity.
      * rewrite (for_each_countries (row :: rows) _ _ c
                   (or_intror (Forall_cons_2 _ _ _ Hh Hdata)) Hload).
        rewrite find_country_new. reflexivity.
Qed.

(** X12. After a load, the entry of an ASN other than 0 has the organisation
    name and the country of the first row that carries the ASN (later rows
    with other names or countries do not change them) and the networks of
    all its rows; an ASN that no row carries has no entry. *)
Theorem find_asn_first_row old rows db asn :
  load_database old rows = (db, OK tt) →
  asn ≠ 0%Z →
  find_asn db asn =
  match first_row_for asn rows with
  | Some (_ :: _ :: org :: c :: _) =>
      Some {| name := org; country := c; networks := observed rows asn |}
  | _ => None
  end.
Proof.
  unfold load_database. intros Hload Hasn.
  rewrite (for_each_find_asn rows _ _ asn Hasn Hload).
  unfold find_asn at 1. simpl. rewrite lookup_empty. reflexivity.
Qed.

(** X13. After a load, every ASN that has an entry has at least one network:
    [networks_for_asn] is empty only for unknown ASNs. *)
Theorem known_asn_has_networks old rows db asn e :
  load_database old rows = (db, OK tt) →
  find_asn db asn = Some e →
  networks e ≠ [] ∧ networks_for_asn db asn ≠ [].
Proof.
  unfold load_database, find_asn, networks_for_asn. intros Hload He.
  rewrite He.
  assert (Hne : networks e ≠ []).
  { apply (for_each_networks_nonempty rows _ _ Hload) with (asn := asn);
      [|exact He].
    intros asn' e'. simpl. rewrite lookup_empty. discriminate. }
  split; exact Hne.
Qed.

(** X14. The three indexes agree: after the load of a table whose header row,
    if present, is the first row, the record that [find_network] returns
    has its network listed under its ASN, its ASN listed under its
    country, and its ASN has an entry. *)
Theorem answers_are_indexed old rows db query n a c :
  load_database old rows = (db, OK tt) →
  Forall (fun row => is_header row = false) (tail rows) →
  find_network db query = OK (Some (n, a, c)) →
  n ∈ networks_for_asn db a ∧ a ∈ find_country db c ∧
  is_Some (find_asn db a).
Proof.
  unfold load_database. intros Hload Hdata Hfind.
  pose proof (for_each_consistent rows db Hdata Hload) as Hcons.
  unfold find_network, NetTree.search in Hfind.
  destruct (ip_network query) as [addr|]; [|discriminate].
  injection Hfind as Hs.
  destruct (search_loop_result truthy (db_network db) (NetTree.prefix addr)
              None) as [Hnone|(p & r & _ & Hr & _ & Hs')]; [congruence|].
  rewrite Hs in Hs'. injection Hs' as <-.
  destruct (Hcons p n a c Hr) as [Hn Ha].
  split; [exact Hn|]. split; [exact Ha|].
  unfold networks_for_asn in Hn. unfold find_asn.
  destruct (db_asn db !! a); [eauto | inversion Hn].
Qed.

(** X15. [find_network] answers only from the table: after a load, the record
    it returns is one that a row of the table (or the header row, with the
    private ranges) put into the tree, and the network of that record
    contains the queried address. *)
Theorem answers_come_from_table old rows db query r :
  load_database old rows = (db, OK tt) →
  find_network db query = OK (Some r) →
  r ∈ table_records rows ∧
  ∃ net addr,
    ip_network r.1.1 = Some net ∧ ip_network query = Some addr ∧
    NetTree.contains net addr ∧
    List.length (NetTree.prefix net) < List.length (NetTree.prefix addr).
Proof.
  unfold load_database. intros Hload Hfind.
  unfold find_network, NetTree.search in Hfind.
  destruct (ip_network query) as [addr|] eqn:Haddr; [|discriminate].
  injection Hfind as Hs.
  destruct (search_loop_result truthy (db_network db) (NetTree.prefix addr)
              None) as [Hnone|(p & r' & Hp & Hr & _ & Hs')]; [congruence|].
  rewrite Hs in Hs'. injection Hs' as <-.
  destruct (for_each_records rows _ _ _ _ Hload Hr)
    as [He|(Hin & net & Hnet & <-)];
    [simpl in He; rewrite record_at_empty in He; discriminate|].
  split; [exact Hin|]. exists net, addr.
  split; [exact Hnet|]. split; [reflexivity|].
  split; [apply above_contains, Hp | apply Hp].
Qed.

(** X16. The header row registers ASN 0 and the country [*] anew wherever it
    stands: after a load, the entry of ASN 0 holds the private ranges
    followed by the ASN-0 networks of the rows after the last header row,
    and [*] lists 0 followed by the ASNs of those rows with country [*];
    what rows before that header row registered there is gone. *)
Theorem header_resets_local_entry old pre hdr post db :
  load_database old (pre ++ hdr :: post) = (db, OK tt) →
  is_header hdr = true →
  Forall (fun row => is_header row = false) post →
  find_asn db 0 =
    Some {| name := "Locally routed network"; country := "*";
            networks := private ++ observed post 0 |} ∧
  find_country db "*" = 0%Z :: observed_countries post "*".
Proof.
  unfold load_database. intros Hload Hh Hpost.
  apply for_each_app_ok in Hload as (db1 & _ & Hload).
  simpl in Hload. unfold bind in Hload.
  destruct (load_row_header hdr db1 Hh) as [t Ht]. rewrite Ht in Hload.
  pose proof (for_each_data_networks post _ _ 0%Z Hpost Hload) as Hnets.
  rewrite networks_for_asn_header in Hnets.
  rewrite bool_decide_eq_true_2 in Hnets by reflexivity.
  pose proof (for_each_countries post _ _ "*" (or_intror Hpost) Hload)
    as Hcs.
  rewrite find_country_header in Hcs.
  rewrite bool_decide_eq_true_2 in Hcs by reflexivity.
  split; [|exact Hcs].
  destruct (for_each_seeded post _ db Hload
              (or_introl (seeded_header t db1)))
    as (e & l & He & Hname & Hcountry & _ & _).
  unfold networks_for_asn in Hnets. unfold find_asn.
  rewrite He in Hnets |- *. destruct e as [nm co nets]. simpl in *.
  subst. reflexivity.
Qed.

End DatabaseExtras.

(** ** Further runs on concrete inputs *)

Section MoreRuns.

Import IPGuide.

Local Ltac run := vm_compute; reflexivity.

Local Ltac decide_by_evaluation :=
  unfold NetTree.contains; apply (bool_decide_unpack _);
  vm_compute; exact I.

Lemma example_entries_build :
  NetTree.insert_all NetTree.empty example_entries =
  OK (db_network example_database).
Proof. run. Qed.

Lemma search_longest_match_witness :
  ip_network "1.2.3.200" = Some (IPv4Network 16909256 32) ∧
  ∃ r, NetTree.search truthy (db_network example_database) "1.2.3.200" =
         OK r ∧
       match r with
       | Some d =>
           ∃ p, NetTree.above p (NetTree.prefix (IPv4Network 16909256 32)) ∧
                NetTree.record_at (db_network example_database) p = Some d ∧
                truthy d = true ∧
                ∀ p' d',
                  NetTree.above p'
                    (NetTree.prefix (IPv4Network 16909256 32)) →
                  List.length p < List.length p' →
                  NetTree.record_at (db_network example_database) p' =
                    Some d' →
                  truthy d' = false
       | None =>
           ∀ p d, NetTree.above p
                    (NetTree.prefix (IPv4Network 16909256 32)) →
                  NetTree.record_at (db_network example_database) p =
                    Some d →
                  truthy d = false
       end.
Proof.
  assert (Ha : ip_network "1.2.3.200" = Some (IPv4Network 16909256 32))
    by run.
  split; [exact Ha|].
  exact (search_longest_match truthy (db_network example_database)
           "1.2.3.200" _ Ha).
Defined.

Lemma search_answers_were_inserted_witness :
  NetTree.insert_all NetTree.empty example_entries =
    OK (db_network example_database) ∧
  ip_network "1.2.3.200" = Some (IPv4Network 16909256 32) ∧
  NetTree.search truthy (db_network example_database) "1.2.3.200" =
    OK (Some ("1.2.3.128/25", 200%Z, "US")) ∧
  ∃ network net,
    (network, ("1.2.3.128/25", 200%Z, "US")) ∈ example_entries ∧
    ip_network network = Some net ∧
    NetTree.contains net (IPv4Network 16909256 32) ∧
    List.length (NetTree.prefix net) <
    List.length (NetTree.prefix (IPv4Network 16909256 32)).
Proof.
  assert (Ha : ip_network "1.2.3.200" = Some (IPv4Network 16909256 32))
    by run.
  assert (Hs : NetTree.search truthy (db_network example_database)
                 "1.2.3.200" = OK (Some ("1.2.3.128/25", 200%Z, "US")))
    by run.
  split; [exact example_entries_build|]. split; [exact Ha|].
  split; [exact Hs|].
  exact (search_answers_were_inserted truthy example_entries _ "1.2.3.200"
           _ _ example_entries_build Ha Hs).
Defined.

Lemma insert_commutes_witness :
  ip_network "10.0.0.0/8" = Some (IPv4Network 167772160 8) ∧
  ip_network "10.1.0.0/16" = Some (IPv4Network 167837696 16) ∧
  NetTree.prefix (IPv4Network 167772160 8) ≠
    NetTree.prefix (IPv4Network 167837696 16) ∧
  ∃ t1 t2 t',
    NetTree.insert (db_network example_database) "10.0.0.0/8"
      ("10.0.0.0/8", 1%Z, "A") = OK t1 ∧
    NetTree.insert t1 "10.1.0.0/16" ("10.1.0.0/16", 2%Z, "B") = OK t' ∧
    NetTree.insert (db_network example_database) "10.1.0.0/16"
      ("10.1.0.0/16", 2%Z, "B") = OK t2 ∧
    NetTree.insert t2 "10.0.0.0/8" ("10.0.0.0/8", 1%Z, "A") = OK t'.
Proof.
  assert (H1 : ip_network "10.0.0.0/8" = Some (IPv4Network 167772160 8))
    by run.
  assert (H2 : ip_network "10.1.0.0/16" = Some (IPv4Network 167837696 16))
    by run.
  assert (Hne : NetTree.prefix (IPv4Network 167772160 8) ≠
                NetTree.prefix (IPv4Network 167837696 16)).
  { intros H. apply (f_equal List.length) in H. vm_compute in H.
    discriminate. }
  split; [exact H1|]. split; [exact H2|]. split; [exact Hne|].
  exact (insert_commutes (db_network example_database) "10.0.0.0/8" _
           ("10.0.0.0/8", 1%Z, "A") "10.1.0.0/16" _
           ("10.1.0.0/16", 2%Z, "B") H1 H2 Hne).
Defined.

Lemma insert_overwrites_witness :
  ip_network "10.0.0.0/8" = Some (IPv4Network 167772160 8) ∧
  ip_network "::ffff:10.0.0.0/104" =
    Some (IPv6Network 281470849515520 104) ∧
  NetTree.prefix (IPv4Network 167772160 8) =
    NetTree.prefix (IPv6Network 281470849515520 104) ∧
  ∃ t1 t2,
    NetTree.insert (db_network example_database) "10.0.0.0/8"
      ("10.0.0.0/8", 1%Z, "A") = OK t1 ∧
    NetTree.insert t1 "::ffff:10.0.0.0/104"
      ("::ffff:10.0.0.0/104", 2%Z, "B") = OK t2 ∧
    NetTree.insert (db_network example_database) "::ffff:10.0.0.0/104"
      ("::ffff:10.0.0.0/104", 2%Z, "B") = OK t2.
Proof.
  assert (H1 : ip_network "10.0.0.0/8" = Some (IPv4Network 167772160 8))
    by run.
  assert (H2 : ip_network "::ffff:10.0.0.0/104" =
               Some (IPv6Network 281470849515520 104))
    by run.
  assert (Heq : NetTree.prefix (IPv4Network 167772160 8) =
                NetTree.prefix (IPv6Network 281470849515520 104))
    by run.
  split; [exact H1|]. split; [exact H2|]. split; [exact Heq|].
  exact (insert_overwrites (db_network example_database) "10.0.0.0/8" _
           ("10.0.0.0/8", 1%Z, "A") "::ffff:10.0.0.0/104" _
           ("::ffff:10.0.0.0/104", 2%Z, "B") H1 H2 Heq).
Defined.

Lemma search_frame_witness :
  ip_network "1.2.4.0/24" = Some (IPv4Network 16909312 24) ∧
  ip_network "1.2.3.200" = Some (IPv4Network 16909256 32) ∧
  ¬ NetTree.above (NetTree.prefix (IPv4Network 16909312 24))
      (NetTree.prefix (IPv4Network 16909256 32)) ∧
  ∃ t', NetTree.insert (db_network example_database) "1.2.4.0/24"
          ("1.2.4.0/24", 300%Z, "CA") = OK t' ∧
        NetTree.search truthy t' "1.2.3.200" =
        NetTree.search truthy (db_network example_database) "1.2.3.200".
Proof.
  assert (Hnet : ip_network "1.2.4.0/24" = Some (IPv4Network 16909312 24))
    by run.
  assert (Ha : ip_network "1.2.3.200" = Some (IPv4Network 16909256 32))
    by run.
  assert (Hoff : ¬ NetTree.above (NetTree.prefix (IPv4Network 16909312 24))
                     (NetTree.prefix (IPv4Network 16909256 32))).
  { intros [Hpre _]. revert Hpre. apply (bool_decide_unpack _).
    vm_compute. exact I. }
  split; [exact Hnet|]. split; [exact Ha|]. split; [exact Hoff|].
  exact (search_frame truthy (db_network example_database) "1.2.4.0/24" _
           ("1.2.4.0/24", 300%Z, "CA") "1.2.3.200" _ Hnet Ha Hoff).
Defined.

Lemma tree_depth_bounded_witness :
  NetTree.insert_all NetTree.empty example_entries =
    OK (db_network example_database) ∧
  is_Some (NetTree.node_at (db_network example_database)
             (NetTree.prefix (IPv6Network 1 128))) ∧
  (List.length (NetTree.prefix (IPv6Network 1 128)) ≤ 128)%nat.
Proof.
  assert (Hn : is_Some (NetTree.node_at (db_network example_database)
                          (NetTree.prefix (IPv6Network 1 128))))
    by (vm_compute; eexists; reflexivity).
  split; [exact example_entries_build|]. split; [exact Hn|].
  exact (tree_depth_bounded example_entries _ _ example_entries_build Hn).
Defined.

Lemma stored_at_prefix_length_witness :
  ip_network "10.0.0.0/8" = Some (IPv4Network 167772160 8) ∧
  ∃ t', NetTree.insert (db_network example_database) "10.0.0.0/8"
          ("10.0.0.0/8", 1%Z, "A") = OK t' ∧
        NetTree.record_at t' (NetTree.prefix (IPv4Network 167772160 8)) =
          Some ("10.0.0.0/8", 1%Z, "A") ∧
        List.length (NetTree.prefix (IPv4Network 167772160 8)) = 8 + 96.
Proof.
  assert (Hnet : ip_network "10.0.0.0/8" = Some (IPv4Network 167772160 8))
    by run.
  split; [exact Hnet|].
  exact (stored_at_prefix_length (db_network example_database) "10.0.0.0/8"
           _ ("10.0.0.0/8", 1%Z, "A") Hnet).
Defined.

Lemma dump_after_insert_witness :
  ip_network "fc00::/7" =
    Some (IPv6Network 334965454937798799971759379190646833152 7) ∧
  ∃ t, NetTree.insert NetTree.empty "fc00::/7" ("fc00::/7", 0%Z, "*") = OK t ∧
       NetTree.dump truthy (fun r : record => r.1.1) t EmptyString =
       "1111110: fc00::/7" +:+ NetTree.newline.
Proof.
  assert (Hnet : ip_network "fc00::/7" =
                 Some (IPv6Network 334965454937798799971759379190646833152 7))
    by run.
  split; [exact Hnet|].
  destruct (dump_after_insert truthy (fun r : record => r.1.1) "fc00::/7" _
              ("fc00::/7", 0%Z, "*") Hnet) as (t & Hins & Hdump).
  exists t. split; [exact Hins|]. rewrite Hdump. run.
Defined.

Lemma find_country_observed_witness :
  load_database None example_table = (example_database, OK tt) ∧
  Forall (fun row => is_header row = false) (tail example_table) ∧
  find_country example_database "*" = observed_countries example_table "*".
Proof.
  assert (Hdata : Forall (fun row => is_header row = false)
                    (tail example_table))
    by (repeat constructor).
  split; [exact example_table_loads|]. split; [exact Hdata|].
  exact (find_country_observed None example_table example_database "*"
           example_table_loads (or_intror Hdata)).
Defined.

Lemma find_asn_first_row_witness :
  load_database None example_table = (example_database, OK tt) ∧
  100%Z ≠ 0%Z ∧
  find_asn example_database 100 =
  match first_row_for 100 example_table with
  | Some (_ :: _ :: org :: c :: _) =>
      Some {| name := org; country := c;
              networks := observed example_table 100 |}
  | _ => None
  end.
Proof.
  assert (Hasn : 100%Z ≠ 0%Z) by discriminate.
  split; [exact example_table_loads|]. split; [exact Hasn|].
  exact (find_asn_first_row None example_table example_database 100
           example_table_loads Hasn).
Defined.

Lemma known_asn_has_networks_witness :
  load_database None example_table = (example_database, OK tt) ∧
  find_asn example_database 200 =
    Some {| name := "SubOrg"; country := "US";
            networks := ["1.2.3.128/25"] |} ∧
  ["1.2.3.128/25"] ≠ [] ∧ networks_for_asn example_database 200 ≠ [].
Proof.
  assert (He : find_asn example_database 200 =
               Some {| name := "SubOrg"; country := "US";
                       networks := ["1.2.3.128/25"] |})
    by run.
  split; [exact example_table_loads|]. split; [exact He|].
  exact (known_asn_has_networks None example_table example_database 200 _
           example_table_loads He).
Defined.

Lemma answers_are_indexed_witness :
  load_database None example_table = (example_database, OK tt) ∧
  Forall (fun row => is_header row = false) (tail example_table) ∧
  find_network example_database "1.2.3.200" =
    OK (Some ("1.2.3.128/25", 200%Z, "US")) ∧
  "1.2.3.128/25" ∈ networks_for_asn example_database 200 ∧
  200%Z ∈ find_country example_database "US" ∧
  is_Some (find_asn example_database 200).
Proof.
  assert (Hdata : Forall (fun row => is_header row = false)
                    (tail example_table))
    by (repeat constructor).
  assert (Hfind : find_network example_database "1.2.3.200" =
                  OK (Some ("1.2.3.128/25", 200%Z, "US")))
    by run.
  split; [exact example_table_loads|]. split; [exact Hdata|].
  split; [exact Hfind|].
  exact (answers_are_indexed None example_table example_database
           "1.2.3.200" _ _ _ example_table_loads Hdata Hfind).
Defined.

Lemma answers_come_from_table_witness :
  load_database None example_table = (example_database, OK tt) ∧
  find_network example_database "192.168.0.3" =
    OK (Some ("192.168.0.0/16", 0%Z, "*")) ∧
  ("192.168.0.0/16", 0%Z, "*") ∈ table_records example_table ∧
  ∃ net addr,
    ip_network "192.168.0.0/16" = Some net ∧
    ip_network "192.168.0.3" = Some addr ∧
    NetTree.contains net addr ∧
    List.length (NetTree.prefix net) < List.length (NetTree.prefix addr).
Proof.
  assert (Hfind : find_network example_database "192.168.0.3" =
                  OK (Some ("192.168.0.0/16", 0%Z, "*")))
    by run.
  split; [exact example_table_loads|]. split; [exact Hfind|].
  exact (answers_come_from_table None example_table example_database
           "192.168.0.3" _ example_table_loads Hfind).
Defined.

Lemma header_resets_local_entry_witness :
  load_database None
    ([["192.0.2.0/24"; "0"; "Early"; "*"]] ++ header_row ::
     [["198.51.100.0/24"; "0"; "Late"; "*"]]) =
    (fst (load_database None
            ([["192.0.2.0/24"; "0"; "Early"; "*"]] ++ header_row ::
             [["198.51.100.0/24"; "0"; "Late"; "*"]])), OK tt) ∧
  is_header header_row = true ∧
  Forall (fun row => is_header row = false)
    [["198.51.100.0/24"; "0"; "Late"; "*"]] ∧
  find_asn (fst (load_database None
                   ([["192.0.2.0/24"; "0"; "Early"; "*"]] ++ header_row ::
                    [["198.51.100.0/24"; "0"; "Late"; "*"]]))) 0 =
    Some {| name := "Locally routed network"; country := "*";
            networks :=
              private ++
              observed [["198.51.100.0/24"; "0"; "Late"; "*"]] 0 |} ∧
  find_country (fst (load_database None
                   ([["192.0.2.0/24"; "0"; "Early"; "*"]] ++ header_row ::
                    [["198.51.100.0/24"; "0"; "Late"; "*"]]))) "*" =
    0%Z :: observed_countries [["198.51.100.0/24"; "0"; "Late"; "*"]] "*".
Proof.
  assert (Hload : load_database None
            ([["192.0.2.0/24"; "0"; "Early"; "*"]] ++ header_row ::
             [["198.51.100.0/24"; "0"; "Late"; "*"]]) =
            (fst (load_database None
                    ([["192.0.2.0/24"; "0"; "Early"; "*"]] ++ header_row ::
                     [["198.51.100.0/24"; "0"; "Late"; "*"]])), OK tt))
    by run.
  assert (Hpost : Forall (fun row => is_header row = false)
                    [["198.51.100.0/24"; "0"; "Late"; "*"]])
    by (repeat constructor).
  split; [exact Hload|]. split; [reflexivity|]. split; [exact Hpost|].
  exact (header_resets_local_entry None _ header_row _ _ Hload eq_refl Hpost).
Defined.

End MoreRuns.
